(** * Fleeks SDK: container lifecycle types and tier limits

    A shallow embedding of [fleeks_sdk/lifecycle.py] (enums, the
    [LifecycleConfig] and [TimeoutExtensionResponse] dataclasses, the
    [TIER_LIMITS] table) and of the lifecycle request built by
    [ContainerManager.extend_timeout] in [fleeks_sdk/containers.py].

    Python values are dynamically typed: a dataclass field holds whatever
    object the caller (or the parsed JSON) supplied.  The embedding keeps
    that: fields are [pyval]s, dicts are finite maps from strings to
    [pyval]s, and an operation that raises returns the exception on the
    left of a sum. *)

From Stdlib Require Import ZArith Lia.
From stdpp Require Import base option strings list sorting gmap fin_maps.

Local Open Scope Z_scope.

(** ** Enumerations *)

(** [class IdleAction(str, Enum)]: members in declaration order. *)
Inductive IdleAction : Type :=
  | SHUTDOWN
  | HIBERNATE
  | KEEP_ALIVE.

(** [class LifecycleState(str, Enum)]: members in declaration order. *)
Inductive LifecycleState : Type :=
  | RUNNING
  | HIBERNATING
  | STOPPED
  | STARTING
  | WAKING.

#[global] Instance IdleAction_eq_dec : EqDecision IdleAction.
Proof. solve_decision. Defined.

#[global] Instance LifecycleState_eq_dec : EqDecision LifecycleState.
Proof. solve_decision. Defined.

(** The [.value] of a member. *)
Definition IdleAction_value (a : IdleAction) : string :=
  match a with
  | SHUTDOWN => "shutdown"
  | HIBERNATE => "hibernate"
  | KEEP_ALIVE => "keep_alive"
  end.

Definition LifecycleState_value (s : LifecycleState) : string :=
  match s with
  | RUNNING => "running"
  | HIBERNATING => "hibernating"
  | STOPPED => "stopped"
  | STARTING => "starting"
  | WAKING => "waking"
  end.

(** Iterating the class ([list(LifecycleState)]) yields the members in
    declaration order. *)
Definition LifecycleState_members : list LifecycleState :=
  [RUNNING; HIBERNATING; STOPPED; STARTING; WAKING].

Definition IdleAction_members : list IdleAction :=
  [SHUTDOWN; HIBERNATE; KEEP_ALIVE].

(** Lookup by value, as [Enum.__call__] does on a string: the first member
    whose value is the string, if any. *)
Definition LifecycleState_of_value (v : string) : option LifecycleState :=
  find (λ s, bool_decide (LifecycleState_value s = v)) LifecycleState_members.

Definition IdleAction_of_value (v : string) : option IdleAction :=
  find (λ a, bool_decide (IdleAction_value a = v)) IdleAction_members.

(** ** Python values and exceptions *)

(** The objects that flow through the modelled functions: JSON values and
    members of [IdleAction].  Lists and nested dicts are only ever passed
    through. *)
#[local] Unset Elimination Schemes.
Inductive pyval : Type :=
  | PyNone
  | PyBool (b : bool)
  | PyInt (n : Z)
  | PyStr (s : string)
  | PyIdleAction (a : IdleAction)
  | PyList (xs : list pyval)
  | PyDict (items : list (string * pyval)).
#[local] Set Elimination Schemes.

Inductive exn : Type :=
  | KeyError (key : string)
  | ValueError (v : pyval)
  | AttributeError (obj : pyval) (attr : string)
  | FleeksError (cls : string).

(** [FleeksError] stands for the SDK's own exception classes
    ([FleeksPermissionError], [FleeksAPIError], ...), which only the client
    raises.  A call either raises or returns. *)
Definition result (A : Type) : Type := exn + A.

Definition raise {A : Type} (e : exn) : result A := inl e.

#[global] Instance result_ret : MRet result := λ A x, inr x.
#[global] Instance result_bind : MBind result := λ A B f m,
  match m with
  | inl e => inl e
  | inr x => f x
  end.

(** [data[key]] *)
Definition getitem (data : gmap string pyval) (key : string) : result pyval :=
  match data !! key with
  | Some v => mret v
  | None => raise (KeyError key)
  end.

(** [data.get(key, default)] *)
Definition get (data : gmap string pyval) (key : string) (dflt : pyval) : pyval :=
  default dflt (data !! key).

(** [IdleAction(v)]: a member is returned as it is, a string is looked up
    by value, anything else is not a valid [IdleAction]. *)
Definition IdleAction_call (v : pyval) : result IdleAction :=
  match v with
  | PyIdleAction a => mret a
  | PyStr s =>
      match IdleAction_of_value s with
      | Some a => mret a
      | None => raise (ValueError v)
      end
  | _ => raise (ValueError v)
  end.

(** ** [LifecycleConfig] *)

Record LifecycleConfig : Type := mkLifecycleConfig {
  idle_timeout_minutes : pyval;
  max_duration_hours : pyval;
  idle_action : pyval;
  auto_wake : pyval;
  keep_alive_on_preview : pyval;
  heartbeat_interval_seconds : pyval
}.

(** [self.idle_action.value] *)
Definition attr_value (obj : pyval) : result pyval :=
  match obj with
  | PyIdleAction a => mret (PyStr (IdleAction_value a))
  | _ => raise (AttributeError obj "value")
  end.

Module LifecycleConfig.

(** The dataclass defaults: [LifecycleConfig()]. *)
Definition defaults : LifecycleConfig :=
  {| idle_timeout_minutes := PyInt 30;
     max_duration_hours := PyNone;
     idle_action := PyIdleAction SHUTDOWN;
     auto_wake := PyBool true;
     keep_alive_on_preview := PyBool false;
     heartbeat_interval_seconds := PyInt 300 |}.

Definition to_dict (self : LifecycleConfig) : result (gmap string pyval) :=
  action ← attr_value (idle_action self);
  mret (<["idle_timeout_minutes" := idle_timeout_minutes self]>
       (<["max_duration_hours" := max_duration_hours self]>
       (<["idle_action" := action]>
       (<["auto_wake" := auto_wake self]>
       (<["keep_alive_on_preview" := keep_alive_on_preview self]>
       (<["heartbeat_interval_seconds" := heartbeat_interval_seconds self]>
        ∅)))))).

Definition from_dict (data : gmap string pyval) : result LifecycleConfig :=
  action ← IdleAction_call (get data "idle_action" (PyStr "shutdown"));
  mret {| idle_timeout_minutes := get data "idle_timeout_minutes" (PyInt 30);
          max_duration_hours := get data "max_duration_hours" PyNone;
          idle_action := PyIdleAction action;
          auto_wake := get data "auto_wake" (PyBool true);
          keep_alive_on_preview := get data "keep_alive_on_preview" (PyBool false);
          heartbeat_interval_seconds :=
            get data "heartbeat_interval_seconds" (PyInt 300) |}.

(** A configuration whose fields have the annotated types
    ([int], [Optional[int]], [IdleAction], [bool], [bool], [int]). *)
Definition typed (minutes : Z) (hours : option Z) (action : IdleAction)
    (wake preview : bool) (heartbeat : Z) : LifecycleConfig :=
  {| idle_timeout_minutes := PyInt minutes;
     max_duration_hours := from_option PyInt PyNone hours;
     idle_action := PyIdleAction action;
     auto_wake := PyBool wake;
     keep_alive_on_preview := PyBool preview;
     heartbeat_interval_seconds := PyInt heartbeat |}.

Definition quick_test : LifecycleConfig :=
  typed 15 None SHUTDOWN true false 300.
Definition development : LifecycleConfig :=
  typed 120 None HIBERNATE true false 300.
Definition agent_task : LifecycleConfig :=
  typed 60 (Some 2) SHUTDOWN true false 300.
Definition always_on : LifecycleConfig :=
  typed 30 None KEEP_ALIVE true true 300.

End LifecycleConfig.

(** ** [TimeoutExtensionResponse] *)

Record TimeoutExtensionResponse : Type := mkTimeoutExtensionResponse {
  container_id : pyval;
  success : pyval;
  new_timeout_at : pyval;
  added_minutes : pyval;
  max_allowed_minutes : pyval;
  message : pyval;
  minutes_extended : pyval
}.

Module TimeoutExtensionResponse.

Definition from_dict (data : gmap string pyval) : result TimeoutExtensionResponse :=
  let added := get data "added_minutes" (PyInt 0) in
  cid ← getitem data "container_id";
  new_at ← getitem data "new_timeout_at";
  mret {| container_id := cid;
          success := get data "success" (PyBool true);
          new_timeout_at := new_at;
          added_minutes := added;
          max_allowed_minutes := get data "max_allowed_minutes" (PyInt 30);
          message := get data "message" (PyStr "");
          minutes_extended := get data "minutes_extended" added |}.

End TimeoutExtensionResponse.

(** ** [TIER_LIMITS] *)

(** One inner dict of the table; [None] is Python's [None] (unlimited). *)
Record TierLimits : Type := mkTierLimits {
  max_idle_timeout_minutes : option Z;
  max_extensions : option Z;
  hibernate : bool;
  keep_alive : bool
}.

(** The dict literal, items in source (insertion) order. *)
Definition TIER_LIMITS_items : list (string * TierLimits) :=
  [ ("FREE",       mkTierLimits (Some 30)  (Some 0)  false false);
    ("BASIC",      mkTierLimits (Some 60)  (Some 2)  false false);
    ("PRO",        mkTierLimits (Some 120) (Some 5)  true  false);
    ("ULTIMATE",   mkTierLimits (Some 240) (Some 10) true  false);
    ("ENTERPRISE", mkTierLimits None       None      true  true) ].

Definition TIER_LIMITS : gmap string TierLimits :=
  list_to_map TIER_LIMITS_items.

(** [list(TIER_LIMITS)]: the keys in insertion order. *)
Definition TIER_NAMES : list string := TIER_LIMITS_items.*1.

(** [TIER_LIMITS[tier]] *)
Definition TIER_LIMITS_getitem (tier : string) : result TierLimits :=
  match TIER_LIMITS !! tier with
  | Some limits => mret limits
  | None => raise (KeyError tier)
  end.

(** The order on limits in which [None] (unlimited) lies above every
    integer. *)
Definition limit_lt (a b : option Z) : Prop :=
  match a, b with
  | Some x, Some y => x < y
  | Some _, None => True
  | None, _ => False
  end.

#[global] Instance limit_lt_dec (a b : option Z) : Decision (limit_lt a b).
Proof. destruct a, b; simpl; apply _. Defined.

(** [tier_below lo hi]: every limit of [hi] is strictly above that of
    [lo], and [hi] keeps each capability [lo] has. *)
Definition tier_below (lo hi : TierLimits) : Prop :=
  limit_lt (max_idle_timeout_minutes lo) (max_idle_timeout_minutes hi) ∧
  limit_lt (max_extensions lo) (max_extensions hi) ∧
  (hibernate lo = true → hibernate hi = true) ∧
  (keep_alive lo = true → keep_alive hi = true).

#[global] Instance tier_below_dec (lo hi : TierLimits) : Decision (tier_below lo hi).
Proof. unfold tier_below. apply _. Defined.

(** ** [ContainerManager.extend_timeout] *)

(** The arguments handed to [client._make_request]. *)
Record Request : Type := mkRequest {
  req_method : string;
  req_endpoint : string;
  req_json : option (gmap string pyval)
}.

Module ContainerManager.

(** [max(1, min(480, additional_minutes))] *)
Definition extend_timeout_minutes (additional_minutes : Z) : Z :=
  Z.max 1 (Z.min 480 additional_minutes).

Definition extend_timeout_request (container_id : string)
    (additional_minutes : Z) : Request :=
  {| req_method := "POST";
     req_endpoint := "containers/" +:+ container_id +:+ "/extend-timeout";
     req_json := Some {[ "additional_minutes" :=
                           PyInt (extend_timeout_minutes additional_minutes) ]} |}.

Section client.
(** The client is the only effect: [_make_request] talks to the backend,
    whose state is threaded through. *)
Context {Backend : Type}.
Variable make_request :
  Request → Backend → result (gmap string pyval) * Backend.

Definition extend_timeout (container_id : string) (additional_minutes : Z)
    (b : Backend) : result TimeoutExtensionResponse * Backend :=
  let '(response, b') :=
    make_request (extend_timeout_request container_id additional_minutes) b in
  (response ≫= TimeoutExtensionResponse.from_dict, b').
End client.

End ContainerManager.

(** ** The lifecycle controller of the design *)

(** The SDK only forwards lifecycle commands; the controller that enforces
    the tier limits is described by the design document, not implemented in
    the package.  Its tier checks are modelled here over the source's
    [TIER_LIMITS]. *)
Module Controller.

(** Modelled from the spec: the error taxonomy of section 7. *)
Inductive error : Type :=
  | InvalidTierError
  | TierLimitExceededError
  | InvalidStateError
  | ContainerNotRunningError
  | ContainerHibernatingError.

(** Modelled from the spec: the container lifecycle record of section 3
    (the fields the commands below read or write).  Times are in minutes;
    [extensions_used] is a count. *)
Record record : Type := mkRecord {
  state : LifecycleState;
  owner_tier : string;
  idle_timeout : Z;
  keep_alive_enabled : bool;
  auto_wake_enabled : bool;
  last_activity_at : Z;
  timeout_at : option Z;
  extensions_used : nat
}.

(** Modelled from the spec: [TierPolicy.limits], section 4.1: a pure
    lookup, an unknown tier is [InvalidTierError]. *)
Definition limits (tier : string) : error + TierLimits :=
  match TIER_LIMITS !! tier with
  | Some l => inr l
  | None => inl InvalidTierError
  end.

(** Modelled from the spec: the state rule of section 4.3 for a command
    other than [wake], [get_status] and [configure]: STOPPED refuses it,
    HIBERNATING refuses it unless [auto_wake] brings the container back
    to RUNNING first. *)
Definition admit_command (r : record) : error + record :=
  match state r with
  | STOPPED => inl ContainerNotRunningError
  | HIBERNATING =>
      if auto_wake_enabled r
      then inr (mkRecord RUNNING (owner_tier r) (idle_timeout r)
                  (keep_alive_enabled r) (auto_wake_enabled r)
                  (last_activity_at r) (timeout_at r) (extensions_used r))
      else inl ContainerHibernatingError
  | _ => inr r
  end.

(** Modelled from the spec: [tier.max_idle_timeout_remaining], read as
    what is left of the tier's maximum idle timeout above the configured
    one; absent for an unlimited tier. *)
Definition max_idle_timeout_remaining (l : TierLimits) (configured : Z) : option Z :=
  (λ m, m - configured) <$> max_idle_timeout_minutes l.

(** Modelled from the spec: "clamps minutes to
    [1, tier.max_idle_timeout_remaining]". *)
Definition clamp_minutes (remaining : option Z) (minutes : Z) : Z :=
  match remaining with
  | Some hi => Z.max 1 (Z.min hi minutes)
  | None => Z.max 1 minutes
  end.

(** Modelled from the spec: [extensions_used ≥ tier.max_extensions],
    unlimited when null. *)
Definition extensions_exhausted (l : TierLimits) (r : record) : bool :=
  match max_extensions l with
  | Some m => bool_decide (m ≤ Z.of_nat (extensions_used r))
  | None => false
  end.

(** Modelled from the spec: [extend_timeout] of section 4.5.  Following
    the control flow of section 2, the command is validated against the
    tier policy before the state machine is consulted. *)
Definition extend_timeout (r : record) (minutes : Z) : error + record :=
  match limits (owner_tier r) with
  | inl e => inl e
  | inr l =>
      if extensions_exhausted l r then inl TierLimitExceededError
      else
        match admit_command r with
        | inl e => inl e
        | inr r' =>
            let remaining := max_idle_timeout_remaining l (idle_timeout r') in
            let m := clamp_minutes remaining minutes in
            inr (mkRecord (state r') (owner_tier r') (idle_timeout r')
                   (keep_alive_enabled r') (auto_wake_enabled r')
                   (last_activity_at r')
                   ((λ t, t + m) <$> timeout_at r')
                   (S (extensions_used r')))
        end
  end.

(** Modelled from the spec: [set_keep_alive] of section 4.5.  Enabling is
    refused when the tier lacks the capability; disabling is always
    permitted and re-arms the idle timer from the current activity. *)
Definition set_keep_alive (r : record) (enabled : bool) : error + record :=
  if enabled then
    match limits (owner_tier r) with
    | inl e => inl e
    | inr l =>
        if keep_alive l then
          match admit_command r with
          | inl e => inl e
          | inr r' =>
              inr (mkRecord (state r') (owner_tier r') (idle_timeout r')
                     true (auto_wake_enabled r') (last_activity_at r')
                     None (extensions_used r'))
          end
        else inl TierLimitExceededError
    end
  else
    inr (mkRecord (state r) (owner_tier r) (idle_timeout r)
           false (auto_wake_enabled r) (last_activity_at r)
           (Some (last_activity_at r + idle_timeout r)) (extensions_used r)).

End Controller.

(** ** The other responses of [lifecycle.py] *)

Module HeartbeatResponse.

Record t : Type := mk {
  container_id : pyval;
  status : pyval;
  last_heartbeat : pyval;
  idle_timeout_seconds : pyval;
  next_timeout_at : pyval;
  message : pyval
}.

Definition from_dict (data : gmap string pyval) : result t :=
  cid ← getitem data "container_id";
  beat ← getitem data "last_heartbeat";
  next ← getitem data "next_timeout_at";
  mret {| container_id := cid;
          status := get data "status" (PyStr "active");
          last_heartbeat := beat;
          idle_timeout_seconds := get data "idle_timeout_seconds" (PyInt 1800);
          next_timeout_at := next;
          message := get data "message" (PyStr "") |}.

End HeartbeatResponse.

Module KeepAliveResponse.

Record t : Type := mk {
  container_id : pyval;
  keep_alive_enabled : pyval;
  requires_tier : pyval;
  user_tier : pyval;
  is_authorized : pyval;
  message : pyval
}.

Definition from_dict (data : gmap string pyval) : result t :=
  cid ← getitem data "container_id";
  mret {| container_id := cid;
          keep_alive_enabled := get data "keep_alive_enabled" (PyBool false);
          requires_tier := get data "requires_tier" (PyStr "TEAM_ENTERPRISE");
          user_tier := get data "user_tier" (PyStr "FREE");
          is_authorized := get data "is_authorized" (PyBool false);
          message := get data "message" (PyStr "") |}.

End KeepAliveResponse.

Module HibernationResponse.

Record t : Type := mk {
  container_id : pyval;
  status : pyval;
  action : pyval;
  estimated_resume_seconds : pyval;
  message : pyval
}.

(** The [state] property: an alias of [status]. *)
Definition state (self : t) : pyval := status self.

Definition from_dict (data : gmap string pyval) : result t :=
  cid ← getitem data "container_id";
  mret {| container_id := cid;
          status := get data "status" (PyStr "unknown");
          action := get data "action" (PyStr "unknown");
          estimated_resume_seconds := get data "estimated_resume_seconds" PyNone;
          message := get data "message" (PyStr "") |}.

End HibernationResponse.

Module LifecycleStatus.

Record t : Type := mk {
  container_id : pyval;
  state : pyval;
  idle_timeout_minutes : pyval;
  idle_action : pyval;
  keep_alive_enabled : pyval;
  last_activity_at : pyval;
  timeout_at : pyval;
  time_remaining_seconds : pyval;
  uptime_seconds : pyval
}.

Definition from_dict (data : gmap string pyval) : result t :=
  cid ← getitem data "container_id";
  last ← getitem data "last_activity_at";
  mret {| container_id := cid;
          state := get data "state" (PyStr "running");
          idle_timeout_minutes := get data "idle_timeout_minutes" (PyInt 30);
          idle_action := get data "idle_action" (PyStr "shutdown");
          keep_alive_enabled := get data "keep_alive_enabled" (PyBool false);
          last_activity_at := last;
          timeout_at := get data "timeout_at" PyNone;
          time_remaining_seconds := get data "time_remaining_seconds" PyNone;
          uptime_seconds := get data "uptime_seconds" (PyInt 0) |}.

End LifecycleStatus.

(** ** The other requests of [ContainerManager] *)

(** Truthiness of an [Optional[Dict[str, str]]] argument ([if environment:]):
    [None] and the empty dict are false. *)
Definition truthy_dict (d : option (list (string * string))) : bool :=
  match d with
  | Some (_ :: _) => true
  | _ => false
  end.

(** A [Dict[str, str]] as a JSON object. *)
Definition str_dict (d : list (string * string)) : pyval :=
  PyDict (prod_map id PyStr <$> d).

Module Containers.

(** [f'containers/{self.container_id}/{op}'] *)
Definition endpoint (container_id op : string) : string :=
  "containers/" +:+ container_id +:+ "/" +:+ op.

Definition get_info_request (container_id : string) : Request :=
  mkRequest "GET" (endpoint container_id "info") None.

Definition get_stats_request (container_id : string) : Request :=
  mkRequest "GET" (endpoint container_id "stats") None.

Definition get_processes_request (container_id : string) : Request :=
  mkRequest "GET" (endpoint container_id "processes") None.

Definition heartbeat_request (container_id : string) : Request :=
  mkRequest "POST" (endpoint container_id "heartbeat") None.

Definition set_keep_alive_request (container_id : string) (enabled : bool) : Request :=
  mkRequest "POST" (endpoint container_id "keep-alive")
    (Some {[ "enabled" := PyBool enabled ]}).

Definition hibernate_request (container_id : string) : Request :=
  mkRequest "POST" (endpoint container_id "hibernate") None.

Definition wake_request (container_id : string) : Request :=
  mkRequest "POST" (endpoint container_id "wake") None.

Definition get_lifecycle_status_request (container_id : string) : Request :=
  mkRequest "GET" (endpoint container_id "lifecycle") None.

Definition restart_request (container_id : string) : Request :=
  mkRequest "POST" (endpoint container_id "restart") None.

(** The body of [exec]: the [environment] key is added only when the
    argument is truthy. *)
Definition exec_data (command working_dir : string) (timeout_seconds : Z)
    (environment : option (list (string * string))) : gmap string pyval :=
  let data : gmap string pyval :=
    <["command" := PyStr command]>
    (<["working_dir" := PyStr working_dir]>
    (<["timeout_seconds" := PyInt timeout_seconds]> ∅)) in
  if truthy_dict environment
  then <["environment" := str_dict (default [] environment)]> data
  else data.

Definition exec_request (container_id command working_dir : string)
    (timeout_seconds : Z) (environment : option (list (string * string))) : Request :=
  mkRequest "POST" (endpoint container_id "exec")
    (Some (exec_data command working_dir timeout_seconds environment)).

Definition configure_lifecycle_request (container_id : string)
    (body : gmap string pyval) : Request :=
  mkRequest "PUT" (endpoint container_id "lifecycle") (Some body).

(** The HTTP method and endpoint a request is routed by. *)
Definition route (r : Request) : string * string := (req_method r, req_endpoint r).

Section client.
Context {Backend : Type}.
Variable make_request :
  Request → Backend → result (gmap string pyval) * Backend.

(** [response = await self.client._make_request(...)] followed by
    [return Cls.from_dict(response)]. *)
Definition request_and_parse {A : Type} (req : Request)
    (parse : gmap string pyval → result A) (b : Backend) : result A * Backend :=
  let '(response, b') := make_request req b in
  (response ≫= parse, b').

Definition heartbeat (container_id : string) :=
  request_and_parse (heartbeat_request container_id) HeartbeatResponse.from_dict.

Definition set_keep_alive (container_id : string) (enabled : bool) :=
  request_and_parse (set_keep_alive_request container_id enabled)
    KeepAliveResponse.from_dict.

Definition hibernate (container_id : string) :=
  request_and_parse (hibernate_request container_id) HibernationResponse.from_dict.

Definition wake (container_id : string) :=
  request_and_parse (wake_request container_id) HibernationResponse.from_dict.

Definition get_lifecycle_status (container_id : string) :=
  request_and_parse (get_lifecycle_status_request container_id)
    LifecycleStatus.from_dict.

(** [restart] hands the response dict back as it is. *)
Definition restart (container_id : string) :=
  request_and_parse (restart_request container_id) mret.

(** [configure_lifecycle]: the argument [config.to_dict()] is evaluated
    before the call, so when it raises no request is made. *)
Definition configure_lifecycle (container_id : string) (config : LifecycleConfig)
    (b : Backend) : result LifecycleStatus.t * Backend :=
  match LifecycleConfig.to_dict config with
  | inl e => (inl e, b)
  | inr body =>
      request_and_parse (configure_lifecycle_request container_id body)
        LifecycleStatus.from_dict b
  end.

End client.

End Containers.

(** The first of [keys], in order, that [data] lacks: the key a sequence
    of [data[key]] subscripts fails on. *)
Definition first_missing (data : gmap string pyval) (keys : list string) : option string :=
  head (filter (λ k, ¬ is_Some (data !! k)) keys).

(** The keys [LifecycleConfig.to_dict] writes. *)
Definition LifecycleConfig_keys : list string :=
  ["idle_timeout_minutes"; "max_duration_hours"; "idle_action"; "auto_wake";
   "keep_alive_on_preview"; "heartbeat_interval_seconds"].

(** ** [embeds.py]: enumerations *)

Inductive EmbedTemplate : Type :=
  | REACT | VUE | ANGULAR | SVELTE | NEXTJS | NUXT | ASTRO | SOLID | QWIK
  | PYTHON | NODE | TYPESCRIPT | GO | RUST | JAVA | KOTLIN | CSHARP | PHP | RUBY
  | FLUTTER | REACT_NATIVE | SWIFT | ANDROID
  | JUPYTER | UNITY | GODOT
  | STATIC | VANILLA_JS | DEFAULT.

Inductive DisplayMode : Type :=
  | WEB_PREVIEW | VNC_STREAM | GUACAMOLE_STREAM | TERMINAL_ONLY | NOTEBOOK | SPLIT_VIEW.

Inductive EmbedLayoutPreset : Type :=
  | EDITOR_ONLY | PREVIEW_ONLY | SIDE_BY_SIDE | STACKED | FULL_IDE
  | MOBILE_PREVIEW | TABLET_PREVIEW.

Inductive EmbedTheme : Type :=
  | DARK | LIGHT | AUTO | GITHUB_DARK | GITHUB_LIGHT | MONOKAI | DRACULA | NORD
  | SOLARIZED_DARK | SOLARIZED_LIGHT.

Definition EmbedTemplate_value (t : EmbedTemplate) : string :=
  match t with
  | REACT => "react" | VUE => "vue" | ANGULAR => "angular" | SVELTE => "svelte"
  | NEXTJS => "nextjs" | NUXT => "nuxt" | ASTRO => "astro" | SOLID => "solid"
  | QWIK => "qwik"
  | PYTHON => "python" | NODE => "node" | TYPESCRIPT => "typescript" | GO => "go"
  | RUST => "rust" | JAVA => "java" | KOTLIN => "kotlin" | CSHARP => "csharp"
  | PHP => "php" | RUBY => "ruby"
  | FLUTTER => "flutter" | REACT_NATIVE => "react_native" | SWIFT => "swift"
  | ANDROID => "android"
  | JUPYTER => "jupyter" | UNITY => "unity" | GODOT => "godot"
  | STATIC => "static" | VANILLA_JS => "vanilla_js" | DEFAULT => "default"
  end.

Definition DisplayMode_value (d : DisplayMode) : string :=
  match d with
  | WEB_PREVIEW => "web_preview"
  | VNC_STREAM => "vnc_stream"
  | GUACAMOLE_STREAM => "guacamole_stream"
  | TERMINAL_ONLY => "terminal_only"
  | NOTEBOOK => "notebook"
  | SPLIT_VIEW => "split_view"
  end.

Definition EmbedLayoutPreset_value (l : EmbedLayoutPreset) : string :=
  match l with
  | EDITOR_ONLY => "editor-only"
  | PREVIEW_ONLY => "preview-only"
  | SIDE_BY_SIDE => "side-by-side"
  | STACKED => "stacked"
  | FULL_IDE => "full-ide"
  | MOBILE_PREVIEW => "mobile-preview"
  | TABLET_PREVIEW => "tablet-preview"
  end.

Definition EmbedTheme_value (t : EmbedTheme) : string :=
  match t with
  | DARK => "dark"
  | LIGHT => "light"
  | AUTO => "auto"
  | GITHUB_DARK => "github-dark"
  | GITHUB_LIGHT => "github-light"
  | MONOKAI => "monokai"
  | DRACULA => "dracula"
  | NORD => "nord"
  | SOLARIZED_DARK => "solarized-dark"
  | SOLARIZED_LIGHT => "solarized-light"
  end.

Definition EmbedLayoutPreset_members : list EmbedLayoutPreset :=
  [EDITOR_ONLY; PREVIEW_ONLY; SIDE_BY_SIDE; STACKED; FULL_IDE;
   MOBILE_PREVIEW; TABLET_PREVIEW].

Definition EmbedTheme_members : list EmbedTheme :=
  [DARK; LIGHT; AUTO; GITHUB_DARK; GITHUB_LIGHT; MONOKAI; DRACULA; NORD;
   SOLARIZED_DARK; SOLARIZED_LIGHT].

Definition EmbedLayoutPreset_of_value (v : string) : option EmbedLayoutPreset :=
  find (λ l, bool_decide (EmbedLayoutPreset_value l = v)) EmbedLayoutPreset_members.

Definition EmbedTheme_of_value (v : string) : option EmbedTheme :=
  find (λ t, bool_decide (EmbedTheme_value t = v)) EmbedTheme_members.

(** The key under which an object is looked up among an enum's values: a
    string is its own key and a member of a [str]-mixin enum hashes and
    compares as its value; nothing else equals a string. *)
Definition str_key (v : pyval) : option string :=
  match v with
  | PyStr s => Some s
  | PyIdleAction a => Some (IdleAction_value a)
  | _ => None
  end.

(** [EmbedLayoutPreset(v)] and [EmbedTheme(v)] on a value of a response
    dict. *)
Definition EmbedLayoutPreset_call (v : pyval) : result EmbedLayoutPreset :=
  match str_key v ≫= EmbedLayoutPreset_of_value with
  | Some l => mret l
  | None => raise (ValueError v)
  end.

Definition EmbedTheme_call (v : pyval) : result EmbedTheme :=
  match str_key v ≫= EmbedTheme_of_value with
  | Some t => mret t
  | None => raise (ValueError v)
  end.

(** What the [layout] and [theme] fields of the settings may hold: a
    member of one of the two enums, or any other value. *)
Inductive pyobj : Type :=
  | Plain (v : pyval)
  | LayoutMember (l : EmbedLayoutPreset)
  | ThemeMember (t : EmbedTheme).

(** [obj.value] *)
Definition pyobj_value (obj : pyobj) : result pyval :=
  match obj with
  | LayoutMember l => mret (PyStr (EmbedLayoutPreset_value l))
  | ThemeMember t => mret (PyStr (EmbedTheme_value t))
  | Plain v => attr_value v
  end.

(** Truthiness of a value ([if x:]). *)
Definition truthy (v : pyval) : bool :=
  match v with
  | PyNone => false
  | PyBool b => b
  | PyInt n => negb (n =? 0)
  | PyStr s => negb (bool_decide (s = ""))
  | PyIdleAction _ => true
  | PyList xs => negb (bool_decide (length xs = 0%nat))
  | PyDict items => negb (bool_decide (length items = 0%nat))
  end.

(** Truthiness of [Optional[str]] and [Optional[List[str]]] arguments. *)
Definition truthy_str (s : option string) : bool :=
  match s with
  | Some s => negb (bool_decide (s = ""))
  | None => false
  end.

Definition truthy_list {A : Type} (l : option (list A)) : bool :=
  match l with
  | Some (_ :: _) => true
  | _ => false
  end.

(** ** [EmbedSettings] and [EmbedFile] *)

Module EmbedSettings.

Record t : Type := mk {
  layout : pyobj;
  theme : pyobj;
  read_only : pyval;
  show_terminal : pyval;
  show_file_tree : pyval;
  show_console : pyval;
  auto_run : pyval;
  hide_navigation : pyval;
  font_size : pyval;
  tab_size : pyval
}.

Definition defaults : t :=
  {| layout := LayoutMember SIDE_BY_SIDE;
     theme := ThemeMember DARK;
     read_only := PyBool false;
     show_terminal := PyBool true;
     show_file_tree := PyBool true;
     show_console := PyBool true;
     auto_run := PyBool true;
     hide_navigation := PyBool false;
     font_size := PyInt 14;
     tab_size := PyInt 2 |}.

(** The items of the dict literal of [to_dict], in order. *)
Definition to_dict_items (self : t) : result (list (string * pyval)) :=
  layout_value ← pyobj_value (layout self);
  theme_value ← pyobj_value (theme self);
  mret [ ("layout", layout_value);
         ("theme", theme_value);
         ("read_only", read_only self);
         ("show_terminal", show_terminal self);
         ("show_file_tree", show_file_tree self);
         ("show_console", show_console self);
         ("auto_run", auto_run self);
         ("hide_navigation", hide_navigation self);
         ("font_size", font_size self);
         ("tab_size", tab_size self) ].

Definition to_dict (self : t) : result (gmap string pyval) :=
  items ← to_dict_items self;
  mret (list_to_map items).

Definition from_dict (data : gmap string pyval) : result t :=
  l ← EmbedLayoutPreset_call (get data "layout" (PyStr "side-by-side"));
  th ← EmbedTheme_call (get data "theme" (PyStr "dark"));
  mret {| layout := LayoutMember l;
          theme := ThemeMember th;
          read_only := get data "read_only" (PyBool false);
          show_terminal := get data "show_terminal" (PyBool true);
          show_file_tree := get data "show_file_tree" (PyBool true);
          show_console := get data "show_console" (PyBool true);
          auto_run := get data "auto_run" (PyBool true);
          hide_navigation := get data "hide_navigation" (PyBool false);
          font_size := get data "font_size" (PyInt 14);
          tab_size := get data "tab_size" (PyInt 2) |}.

End EmbedSettings.

Module EmbedFile.

Record t : Type := mk {
  path : string;
  code : pyval;
  hidden : pyval;
  active : pyval
}.

Definition to_dict (self : t) : gmap string pyval :=
  <["code" := code self]>
  (<["hidden" := hidden self]>
  (<["active" := active self]> ∅)).

(** [data] is either a string (the file's content) or a dict. *)
Definition from_dict (path : string) (data : string + gmap string pyval) : t :=
  match data with
  | inl content =>
      {| path := path; code := PyStr content;
         hidden := PyBool false; active := PyBool false |}
  | inr d =>
      {| path := path;
         code := get d "code" (PyStr "");
         hidden := get d "hidden" (PyBool false);
         active := get d "active" (PyBool false) |}
  end.

End EmbedFile.

(** ** The request bodies of [EmbedManager] and [Embed] *)

Definition str_list (l : list string) : pyval := PyList (PyStr <$> l).

Module EmbedManager.

(** The arguments of [create]. *)
Record create_args : Type := mk_create_args {
  name : string;
  template : EmbedTemplate + pyval;
  files : option (list (string * string));
  allowed_origins : option (list string);
  display_mode : DisplayMode + pyval;
  layout_preset : pyobj;
  theme : pyobj;
  session_timeout_minutes : Z;
  max_sessions : Z;
  read_only : pyval;
  show_terminal : pyval;
  show_file_tree : pyval;
  auto_run : pyval;
  description : option string
}.

(** [create(name)] with every other argument at its default. *)
Definition create_defaults (name : string) : create_args :=
  {| name := name;
     template := inl REACT;
     files := None;
     allowed_origins := None;
     display_mode := inl WEB_PREVIEW;
     layout_preset := LayoutMember SIDE_BY_SIDE;
     theme := ThemeMember DARK;
     session_timeout_minutes := 30;
     max_sessions := 100;
     read_only := PyBool false;
     show_terminal := PyBool true;
     show_file_tree := PyBool true;
     auto_run := PyBool true;
     description := None |}.

(** [x.value if isinstance(x, Cls) else x] *)
Definition value_if_member {E : Type} (value : E → string) (x : E + pyval) : pyval :=
  match x with
  | inl m => PyStr (value m)
  | inr v => v
  end.

Definition create_settings (a : create_args) : EmbedSettings.t :=
  {| EmbedSettings.layout := layout_preset a;
     EmbedSettings.theme := theme a;
     EmbedSettings.read_only := read_only a;
     EmbedSettings.show_terminal := show_terminal a;
     EmbedSettings.show_file_tree := show_file_tree a;
     EmbedSettings.show_console := PyBool true;
     EmbedSettings.auto_run := auto_run a;
     EmbedSettings.hide_navigation := PyBool false;
     EmbedSettings.font_size := PyInt 14;
     EmbedSettings.tab_size := PyInt 2 |}.

(** The body [create] posts to ['embeds']. *)
Definition create_data (a : create_args) : result (gmap string pyval) :=
  settings ← EmbedSettings.to_dict_items (create_settings a);
  let data : gmap string pyval :=
    <["name" := PyStr (name a)]>
    (<["template" := value_if_member EmbedTemplate_value (template a)]>
    (<["display_mode" := value_if_member DisplayMode_value (display_mode a)]>
    (<["allowed_origins" :=
         str_list (if truthy_list (allowed_origins a)
                   then default [] (allowed_origins a) else ["*"])]>
    (<["session_timeout_minutes" :=
         PyInt (Z.max 5 (Z.min 60 (session_timeout_minutes a)))]>
    (<["max_sessions" := PyInt (Z.max 1 (Z.min 1000 (max_sessions a)))]>
    (<["settings" := PyDict settings]> ∅)))))) in
  let data :=
    if truthy_dict (files a)
    then <["files" := str_dict (default [] (files a))]> data else data in
  let data :=
    if truthy_str (description a)
    then <["description" := PyStr (default "" (description a))]> data else data in
  mret data.

(** The query parameters of [list]. *)
Definition list_params (page page_size : Z) (include_inactive : bool)
    (template : EmbedTemplate + pyval) (search : option string) : gmap string pyval :=
  let params : gmap string pyval :=
    <["page" := PyInt page]>
    (<["page_size" := PyInt (Z.min 100 page_size)]>
    (<["include_inactive" := PyBool include_inactive]> ∅)) in
  let params :=
    if truthy (value_if_member EmbedTemplate_value template)
    then <["template" := value_if_member EmbedTemplate_value template]> params
    else params in
  if truthy_str search
  then <["search" := PyStr (default "" search)]> params
  else params.

End EmbedManager.

Module Embed.

(** The arguments of [update]; [None] means not given. *)
Record update_args : Type := mk_update_args {
  name : option string;
  description : option string;
  files : option (list (string * string));
  allowed_origins : option (list string);
  settings : option EmbedSettings.t;
  session_timeout_minutes : option Z;
  max_sessions : option Z
}.

Definition no_update : update_args :=
  mk_update_args None None None None None None None.

(** [{k: {'code': v} for k, v in files.items()}] *)
Definition files_as_code (files : list (string * string)) : pyval :=
  PyDict (prod_map id (λ v, PyDict [("code", PyStr v)]) <$> files).

(** [data[key] = value] when the argument is not [None]. *)
Definition set_if_given {A : Type} (key : string) (to_val : A → pyval)
    (arg : option A) (data : gmap string pyval) : gmap string pyval :=
  match arg with
  | Some x => <[key := to_val x]> data
  | None => data
  end.

(** The body [update] patches the embed with. *)
Definition update_data (a : update_args) : result (gmap string pyval) :=
  let data := set_if_given "name" PyStr (name a) ∅ in
  let data := set_if_given "description" PyStr (description a) data in
  let data := set_if_given "files" files_as_code (files a) data in
  let data := set_if_given "allowed_origins" str_list (allowed_origins a) data in
  data ← match settings a with
         | Some st =>
             items ← EmbedSettings.to_dict_items st;
             mret (<["settings" := PyDict items]> data)
         | None => mret data
         end;
  let data := set_if_given "session_timeout_minutes" PyInt (session_timeout_minutes a) data in
  let data := set_if_given "max_sessions" PyInt (max_sessions a) data in
  mret data.

(** [update_file(path, content)] is [update(files={path: content})]. *)
Definition update_file_data (path content : string) : result (gmap string pyval) :=
  update_data (mk_update_args None None (Some [(path, content)]) None None None None).

End Embed.

(** ** [DeployManager.list] *)

(** [d.get(key)] on a JSON object. *)
Definition dict_get (items : list (string * pyval)) (key : string) : option pyval :=
  (list_to_map items : gmap string pyval) !! key.

Section deploy.
(** [DeployListItem] and its [from_dict] live in [models.py]. *)
Context {DeployListItem : Type}.
Variable DeployListItem_from_dict : pyval → result DeployListItem.

(** What [list] makes of the response [data]. *)
Definition DeployManager_list_items (data : pyval) : result (list DeployListItem) :=
  items ← match data with
          | PyList _ => mret data
          | PyDict kvs => mret (default data (dict_get kvs "deployments"))
          | _ => raise (AttributeError data "get")
          end;
  match items with
  | PyList ds => mapM DeployListItem_from_dict ds
  | _ => mret []
  end.

End deploy.

(** * Properties *)

(** ** The tier table *)

Lemma TIER_NAMES_eq :
  TIER_NAMES = ["FREE"; "BASIC"; "PRO"; "ULTIMATE"; "ENTERPRISE"].
Proof. reflexivity. Qed.

Lemma TIER_NAMES_NoDup : NoDup TIER_NAMES.
Proof. rewrite TIER_NAMES_eq. compute_done. Qed.

(** A key maps to limits exactly when the pair is an item of the literal. *)
Lemma TIER_LIMITS_lookup (tier : string) (l : TierLimits) :
  TIER_LIMITS !! tier = Some l ↔ (tier, l) ∈ TIER_LIMITS_items.
Proof.
  unfold TIER_LIMITS. symmetry.
  apply elem_of_list_to_map, TIER_NAMES_NoDup.
Qed.

Lemma TIER_LIMITS_dom (tier : string) :
  is_Some (TIER_LIMITS !! tier) ↔ tier ∈ TIER_NAMES.
Proof.
  unfold TIER_NAMES. rewrite list_elem_of_fmap. split.
  - intros [l Hl]. exists (tier, l). split; [done|].
    by apply TIER_LIMITS_lookup.
  - intros [[t l] [-> Hl]]. exists l. by apply TIER_LIMITS_lookup.
Qed.

(** Case analysis on an entry of the table: one goal per tier. *)
Ltac tier_cases H :=
  apply TIER_LIMITS_lookup in H;
  unfold TIER_LIMITS_items in H;
  repeat (apply elem_of_cons in H as [H | H]);
  [ injection H as -> -> .. | by apply elem_of_nil in H ].

(** C1: for every tier of the table, the recorded hibernate capability is
    true exactly for PRO, ULTIMATE and ENTERPRISE (so it is false for FREE
    and BASIC). *)
Theorem hibernate_iff_pro_or_above (tier : string) (l : TierLimits) :
  TIER_LIMITS !! tier = Some l →
  (hibernate l = true ↔ tier ∈ ["PRO"; "ULTIMATE"; "ENTERPRISE"]) ∧
  (hibernate l = false ↔ tier ∈ ["FREE"; "BASIC"]).
Proof.
  intros H. tier_cases H; simpl; split; compute_done.
Qed.

Lemma hibernate_iff_pro_or_above_witness :
  let pro := mkTierLimits (Some 120) (Some 5) true false in
  TIER_LIMITS !! "PRO" = Some pro ∧
  (hibernate pro = true ↔ "PRO" ∈ ["PRO"; "ULTIMATE"; "ENTERPRISE"]) ∧
  (hibernate pro = false ↔ "PRO" ∈ ["FREE"; "BASIC"]).
Proof.
  split; [reflexivity | apply (hibernate_iff_pro_or_above "PRO"); reflexivity].
Defined.

(** C4: a lookup of a tier outside FREE, BASIC, PRO, ULTIMATE, ENTERPRISE
    finds no limits: [TIER_LIMITS.get] yields nothing and the subscript
    [TIER_LIMITS[tier]] raises [KeyError]; no entry stands in for it. *)
Theorem unknown_tier_is_an_error (tier : string) :
  tier ∉ ["FREE"; "BASIC"; "PRO"; "ULTIMATE"; "ENTERPRISE"] →
  TIER_LIMITS !! tier = None ∧
  TIER_LIMITS_getitem tier = raise (KeyError tier).
Proof.
  intros Hnot.
  assert (TIER_LIMITS !! tier = None) as Hnone.
  { apply eq_None_not_Some. by rewrite TIER_LIMITS_dom, TIER_NAMES_eq. }
  split; [done|]. unfold TIER_LIMITS_getitem. by rewrite Hnone.
Qed.

Lemma unknown_tier_is_an_error_witness :
  TIER_LIMITS !! "TEAM_ENTERPRISE" = None ∧
  TIER_LIMITS_getitem "TEAM_ENTERPRISE" = raise (KeyError "TEAM_ENTERPRISE").
Proof. apply (unknown_tier_is_an_error "TEAM_ENTERPRISE"). compute_done. Defined.

(** The five tiers, and only they, have limits. *)
Lemma known_tier_has_limits (tier : string) :
  tier ∈ ["FREE"; "BASIC"; "PRO"; "ULTIMATE"; "ENTERPRISE"] ↔
  ∃ l, TIER_LIMITS_getitem tier = mret l.
Proof.
  rewrite <- TIER_NAMES_eq, <- TIER_LIMITS_dom. unfold TIER_LIMITS_getitem.
  split.
  - intros [l ->]. by exists l.
  - intros [l Hl]. destruct (TIER_LIMITS !! tier); [done | discriminate Hl].
Qed.

(** C6: ENTERPRISE is the one tier with unlimited limits: both of its
    limits are [None], and each of the other four tiers has two integers. *)
Theorem only_enterprise_is_unlimited (tier : string) (l : TierLimits) :
  TIER_LIMITS !! tier = Some l →
  (tier = "ENTERPRISE" ∧
     max_idle_timeout_minutes l = None ∧ max_extensions l = None) ∨
  (tier ∈ ["FREE"; "BASIC"; "PRO"; "ULTIMATE"] ∧
     ∃ minutes extensions : Z,
       max_idle_timeout_minutes l = Some minutes ∧
       max_extensions l = Some extensions).
Proof.
  intros H. tier_cases H; simpl;
    first [ left; by repeat split
          | right; split; [compute_done | by eexists _, _] ].
Qed.

Lemma only_enterprise_is_unlimited_witness :
  let ent := mkTierLimits None None true true in
  TIER_LIMITS !! "ENTERPRISE" = Some ent ∧
  (("ENTERPRISE" = "ENTERPRISE" ∧
      max_idle_timeout_minutes ent = None ∧ max_extensions ent = None) ∨
   ("ENTERPRISE" ∈ ["FREE"; "BASIC"; "PRO"; "ULTIMATE"] ∧
      ∃ minutes extensions : Z,
        max_idle_timeout_minutes ent = Some minutes ∧
        max_extensions ent = Some extensions)).
Proof.
  split; [reflexivity | apply (only_enterprise_is_unlimited "ENTERPRISE"); reflexivity].
Defined.

(** ** Monotonicity along the tier order *)

Section sorted.
Context {A : Type} (R : A → A → Prop).

(** In a strongly sorted list an earlier element is related to every
    later one. *)
Lemma StronglySorted_lookup_lt (l : list A) (i j : nat) (x y : A) :
  StronglySorted R l →
  l !! i = Some x → l !! j = Some y → (i < j)%nat → R x y.
Proof.
  intros Hl. revert i j. induction Hl as [|a l Hl IH Hall]; intros i j Hi Hj Hij.
  - by rewrite lookup_nil in Hi.
  - destruct j as [|j]; [lia|]. simpl in Hj.
    destruct i as [|i]; simpl in Hi.
    + injection Hi as ->. rewrite Forall_forall in Hall.
      apply Hall. eapply list_elem_of_lookup_2, Hj.
    + apply (IH i j); [done | done | lia].
Qed.
End sorted.

Lemma TIER_LIMITS_sorted : StronglySorted tier_below TIER_LIMITS_items.*2.
Proof.
  unfold TIER_LIMITS_items. simpl.
  repeat (apply SSorted_cons; [| repeat constructor; compute_done]).
  apply SSorted_nil.
Qed.

(** The [i]-th tier of the order and its limits are the [i]-th item. *)
Lemma TIER_LIMITS_nth (i : nat) (tier : string) (l : TierLimits) :
  TIER_NAMES !! i = Some tier →
  TIER_LIMITS !! tier = Some l →
  TIER_LIMITS_items.*2 !! i = Some l.
Proof.
  unfold TIER_NAMES. intros Hi Hl.
  apply list_lookup_fmap_Some in Hi as [[t l'] [Ht Hi]]. simpl in Ht. subst t.
  assert (TIER_LIMITS !! tier = Some l') as Hl'.
  { apply TIER_LIMITS_lookup. eapply list_elem_of_lookup_2, Hi. }
  rewrite Hl in Hl'. injection Hl' as <-.
  rewrite list_lookup_fmap, Hi. done.
Qed.

(** C9: along FREE < BASIC < PRO < ULTIMATE < ENTERPRISE both limits
    strictly increase ([None] counting as unbounded) and no capability is
    lost. *)
Theorem tier_limits_monotone (i j : nat) (lo hi : string) (llo lhi : TierLimits) :
  ["FREE"; "BASIC"; "PRO"; "ULTIMATE"; "ENTERPRISE"] !! i = Some lo →
  ["FREE"; "BASIC"; "PRO"; "ULTIMATE"; "ENTERPRISE"] !! j = Some hi →
  (i < j)%nat →
  TIER_LIMITS !! lo = Some llo →
  TIER_LIMITS !! hi = Some lhi →
  limit_lt (max_idle_timeout_minutes llo) (max_idle_timeout_minutes lhi) ∧
  limit_lt (max_extensions llo) (max_extensions lhi) ∧
  (hibernate llo = true → hibernate lhi = true) ∧
  (keep_alive llo = true → keep_alive lhi = true).
Proof.
  rewrite <- TIER_NAMES_eq. intros Hi Hj Hij Hlo Hhi.
  apply (StronglySorted_lookup_lt tier_below _ i j llo lhi TIER_LIMITS_sorted);
    [by eapply TIER_LIMITS_nth | by eapply TIER_LIMITS_nth | done].
Qed.

Lemma tier_limits_monotone_witness :
  let basic := mkTierLimits (Some 60) (Some 2) false false in
  let ent := mkTierLimits None None true true in
  limit_lt (max_idle_timeout_minutes basic) (max_idle_timeout_minutes ent) ∧
  limit_lt (max_extensions basic) (max_extensions ent) ∧
  (hibernate basic = true → hibernate ent = true) ∧
  (keep_alive basic = true → keep_alive ent = true).
Proof.
  apply (tier_limits_monotone 1 4 "BASIC" "ENTERPRISE");
    [reflexivity | reflexivity | lia | reflexivity | reflexivity].
Defined.

(** ** Tier gates of the controller *)

Section controller.
Import Controller.

Lemma limits_known (tier : string) (l : TierLimits) :
  TIER_LIMITS !! tier = Some l → limits tier = inr l.
Proof. intros H. unfold limits. by rewrite H. Qed.

Lemma limits_unknown (tier : string) :
  TIER_LIMITS !! tier = None → limits tier = inl InvalidTierError.
Proof. intros H. unfold limits. by rewrite H. Qed.

(** Once the allowance is used up the extension is refused, whatever the
    state of the container and the minutes asked for. *)
Lemma extend_timeout_refused (r : record) (l : TierLimits) (m minutes : Z) :
  TIER_LIMITS !! owner_tier r = Some l →
  max_extensions l = Some m →
  m ≤ Z.of_nat (extensions_used r) →
  extend_timeout r minutes = inl TierLimitExceededError.
Proof.
  intros Hl Hm Hused. unfold extend_timeout.
  rewrite (limits_known _ _ Hl). unfold extensions_exhausted. rewrite Hm.
  by rewrite bool_decide_eq_true_2.
Qed.

(** An extension that is granted counts. *)
Lemma extend_timeout_counts (r r' : record) (minutes : Z) :
  extend_timeout r minutes = inr r' →
  extensions_used r' = S (extensions_used r) ∧ owner_tier r' = owner_tier r.
Proof.
  unfold extend_timeout, admit_command.
  destruct (limits (owner_tier r)) as [e|l]; [discriminate|].
  destruct (extensions_exhausted l r); [discriminate|].
  destruct (state r), (auto_wake_enabled r); try discriminate;
    intros [= <-]; done.
Qed.

Lemma set_keep_alive_refused (r : record) (l : TierLimits) :
  TIER_LIMITS !! owner_tier r = Some l →
  keep_alive l = false →
  set_keep_alive r true = inl TierLimitExceededError.
Proof.
  intros Hl Hk. unfold set_keep_alive.
  by rewrite (limits_known _ _ Hl), Hk.
Qed.

(** The gates are not blanket refusals: a BASIC container with an
    extension left gets it, capped by what its tier leaves (60 - 30), and
    an ENTERPRISE container may enable keep-alive. *)
Example extend_timeout_granted :
  extend_timeout (mkRecord RUNNING "BASIC" 30 false true 100 (Some 130) 1) 45
  = inr (mkRecord RUNNING "BASIC" 30 false true 100 (Some 160) 2).
Proof. reflexivity. Qed.

Example set_keep_alive_granted :
  set_keep_alive (mkRecord RUNNING "ENTERPRISE" 30 false true 100 (Some 130) 0) true
  = inr (mkRecord RUNNING "ENTERPRISE" 30 true true 100 None 0).
Proof. reflexivity. Qed.

(** Disabling keep-alive is never refused. *)
Lemma set_keep_alive_disable (r : record) :
  ∃ r', set_keep_alive r false = inr r' ∧ keep_alive_enabled r' = false.
Proof. by eexists. Qed.

End controller.

(** C2: the FREE entry of the table is 30 minutes of idle timeout and 0
    extensions, so the controller refuses every [extend_timeout] on a
    FREE-tier container with [TierLimitExceededError]. *)
Theorem free_tier_never_extends (r : Controller.record) (minutes : Z) :
  Controller.owner_tier r = "FREE" →
  (∃ l, TIER_LIMITS !! "FREE" = Some l ∧
        max_idle_timeout_minutes l = Some 30 ∧ max_extensions l = Some 0) ∧
  Controller.extend_timeout r minutes = inl Controller.TierLimitExceededError.
Proof.
  intros Hr.
  assert (TIER_LIMITS !! "FREE" = Some (mkTierLimits (Some 30) (Some 0) false false))
    as Hfree by reflexivity.
  split; [by eexists|].
  eapply (extend_timeout_refused r _ 0); [by rewrite Hr | done | lia].
Qed.

Lemma free_tier_never_extends_witness :
  let r := Controller.mkRecord RUNNING "FREE" 30 false true 0 (Some 30) 0 in
  (∃ l, TIER_LIMITS !! "FREE" = Some l ∧
        max_idle_timeout_minutes l = Some 30 ∧ max_extensions l = Some 0) ∧
  Controller.extend_timeout r 60 = inl Controller.TierLimitExceededError.
Proof. apply free_tier_never_extends. reflexivity. Defined.

(** C5: for every tier of the table the recorded keep-alive capability is
    true exactly for ENTERPRISE, and the controller refuses to enable
    keep-alive on a container of any other tier with
    [TierLimitExceededError]. *)
Theorem keep_alive_iff_enterprise (tier : string) (l : TierLimits) :
  TIER_LIMITS !! tier = Some l →
  (keep_alive l = true ↔ tier = "ENTERPRISE") ∧
  (tier ≠ "ENTERPRISE" →
   ∀ r : Controller.record,
     Controller.owner_tier r = tier →
     Controller.set_keep_alive r true = inl Controller.TierLimitExceededError).
Proof.
  intros Hl.
  assert (keep_alive l = true ↔ tier = "ENTERPRISE") as Hiff.
  { pose proof Hl as H. tier_cases H; simpl; compute_done. }
  split; [done|]. intros Hne r Hr.
  apply (set_keep_alive_refused r l); [by rewrite Hr|].
  destruct (keep_alive l); [|done]. by destruct Hne; apply Hiff.
Qed.

Lemma keep_alive_iff_enterprise_witness :
  let ult := mkTierLimits (Some 240) (Some 10) true false in
  let r := Controller.mkRecord RUNNING "ULTIMATE" 30 false true 0 (Some 30) 0 in
  (keep_alive ult = true ↔ "ULTIMATE" = "ENTERPRISE") ∧
  Controller.set_keep_alive r true = inl Controller.TierLimitExceededError.
Proof.
  destruct (keep_alive_iff_enterprise "ULTIMATE" _ eq_refl) as [Hiff Hgate].
  split; [exact Hiff | apply Hgate; [discriminate | reflexivity]].
Defined.

(** ** The lifecycle states *)

Lemma LifecycleState_of_value_value (s : LifecycleState) :
  LifecycleState_of_value (LifecycleState_value s) = Some s.
Proof. by destruct s. Qed.

Lemma LifecycleState_value_inj : Inj (=) (=) LifecycleState_value.
Proof.
  intros s1 s2 Hv.
  pose proof (LifecycleState_of_value_value s1) as H1.
  rewrite Hv, LifecycleState_of_value_value in H1. by injection H1.
Qed.

Lemma LifecycleState_of_value_Some (v : string) (s : LifecycleState) :
  LifecycleState_of_value v = Some s → LifecycleState_value s = v.
Proof.
  unfold LifecycleState_of_value. intros H.
  apply find_some in H as [_ H]. by apply bool_decide_eq_true in H.
Qed.

(** C7: a lifecycle state is one of STARTING, RUNNING, HIBERNATING, WAKING,
    STOPPED; the five are pairwise distinct, their values are "starting",
    "running", "hibernating", "waking", "stopped", and a string names a
    state exactly when it is the value of one of them. *)
Theorem lifecycle_state_five_states :
  (∀ s : LifecycleState, s ∈ [STARTING; RUNNING; HIBERNATING; WAKING; STOPPED]) ∧
  NoDup [STARTING; RUNNING; HIBERNATING; WAKING; STOPPED] ∧
  LifecycleState_members ≡ₚ [STARTING; RUNNING; HIBERNATING; WAKING; STOPPED] ∧
  LifecycleState_value <$> [STARTING; RUNNING; HIBERNATING; WAKING; STOPPED]
    = ["starting"; "running"; "hibernating"; "waking"; "stopped"] ∧
  NoDup (LifecycleState_value <$> LifecycleState_members) ∧
  (∀ (v : string) (s : LifecycleState),
     LifecycleState_of_value v = Some s ↔ v = LifecycleState_value s).
Proof.
  split_and!.
  - intros s. destruct s; compute_done.
  - compute_done.
  - compute_done.
  - reflexivity.
  - compute_done.
  - intros v s. split.
    + intros H. symmetry. by apply LifecycleState_of_value_Some.
    + intros ->. apply LifecycleState_of_value_value.
Qed.

(** ** [LifecycleConfig] serialization *)

Lemma get_absent (data : gmap string pyval) (key : string) (dflt : pyval) :
  data !! key = None → get data key dflt = dflt.
Proof. intros H. unfold get. by rewrite H. Qed.

Lemma IdleAction_of_value_value (a : IdleAction) :
  IdleAction_of_value (IdleAction_value a) = Some a.
Proof. by destruct a. Qed.

(** Reading the keys of a dict literal: each lookup skips the other keys
    and hits its own. *)
Ltac get_literal :=
  unfold get; rewrite !lookup_insert; simpl.

(** Whenever [to_dict] returns, [from_dict] gives the configuration back,
    whatever objects the other fields hold. *)
Lemma from_dict_to_dict (c : LifecycleConfig) (d : gmap string pyval) :
  LifecycleConfig.to_dict c = mret d → LifecycleConfig.from_dict d = mret c.
Proof.
  unfold LifecycleConfig.to_dict. destruct c as [minutes hours action wake preview beat].
  simpl. destruct action as [| | | |a| |]; try discriminate. simpl.
  intros [= <-]. unfold LifecycleConfig.from_dict.
  get_literal. by rewrite IdleAction_of_value_value.
Qed.

(** [to_dict] returns exactly on the configurations whose [idle_action] is
    a member of [IdleAction]. *)
Lemma to_dict_returns (c : LifecycleConfig) :
  (∃ d, LifecycleConfig.to_dict c = mret d) ↔ (∃ a, idle_action c = PyIdleAction a).
Proof.
  unfold LifecycleConfig.to_dict. split.
  - intros [d Hd]. destruct (idle_action c); try discriminate Hd. by eexists.
  - intros [a ->]. by eexists.
Qed.

(** C8: for a [LifecycleConfig] with fields of the declared types,
    [from_dict (to_dict c)] is [c]. *)
Theorem lifecycle_config_round_trip (minutes : Z) (hours : option Z)
    (action : IdleAction) (wake preview : bool) (heartbeat : Z) :
  let c := LifecycleConfig.typed minutes hours action wake preview heartbeat in
  LifecycleConfig.to_dict c ≫= LifecycleConfig.from_dict = mret c.
Proof.
  intros c.
  destruct (proj2 (to_dict_returns c)) as [d Hd]; [by exists action|].
  rewrite Hd. simpl. by apply from_dict_to_dict.
Qed.

(** ** [TimeoutExtensionResponse.from_dict] *)

(** The parse returns exactly when both mandatory keys are present. *)
Lemma timeout_extension_from_dict_returns (data : gmap string pyval) :
  (∃ r, TimeoutExtensionResponse.from_dict data = mret r) ↔
  is_Some (data !! "container_id") ∧ is_Some (data !! "new_timeout_at").
Proof.
  unfold TimeoutExtensionResponse.from_dict, getitem. split.
  - intros [r Hr].
    destruct (data !! "container_id"); [|discriminate Hr].
    destruct (data !! "new_timeout_at"); [|discriminate Hr]. by split.
  - intros [[cid ->] [new_at ->]]. by eexists.
Qed.

(** A missing [container_id] is reported first. *)
Lemma timeout_extension_from_dict_KeyError (data : gmap string pyval) (e : exn) :
  TimeoutExtensionResponse.from_dict data = raise e →
  (data !! "container_id" = None ∧ e = KeyError "container_id") ∨
  (is_Some (data !! "container_id") ∧ data !! "new_timeout_at" = None ∧
   e = KeyError "new_timeout_at").
Proof.
  unfold TimeoutExtensionResponse.from_dict, getitem.
  destruct (data !! "container_id") as [cid|]; simpl.
  - destruct (data !! "new_timeout_at") as [new_at|]; simpl; [discriminate|].
    intros [= <-]. right. by repeat split.
  - intros [= <-]. by left.
Qed.

(** C10: when the response has no ['minutes_extended'] key, the parsed
    [minutes_extended] is the parsed [added_minutes]. *)
Theorem minutes_extended_defaults_to_added
    (data : gmap string pyval) (r : TimeoutExtensionResponse) :
  data !! "minutes_extended" = None →
  TimeoutExtensionResponse.from_dict data = mret r →
  minutes_extended r = added_minutes r.
Proof.
  intros Habsent. unfold TimeoutExtensionResponse.from_dict, getitem.
  destruct (data !! "container_id") as [cid|]; [|discriminate].
  destruct (data !! "new_timeout_at") as [new_at|]; [|discriminate].
  simpl. intros [= <-]. simpl. by apply get_absent.
Qed.

Lemma minutes_extended_defaults_to_added_witness :
  let data : gmap string pyval :=
    <["container_id" := PyStr "c-1"]>
      (<["new_timeout_at" := PyStr "2025-01-01T00:30:00Z"]>
      (<["added_minutes" := PyInt 45]> ∅)) in
  ∃ r, TimeoutExtensionResponse.from_dict data = mret r ∧
       added_minutes r = PyInt 45 ∧
       minutes_extended r = added_minutes r.
Proof.
  intros data. eexists. split; [reflexivity|]. split; [reflexivity|].
  apply (minutes_extended_defaults_to_added data); reflexivity.
Defined.

(** When the key is present its value wins, whatever [added_minutes] is. *)
Lemma minutes_extended_present
    (data : gmap string pyval) (r : TimeoutExtensionResponse) (v : pyval) :
  data !! "minutes_extended" = Some v →
  TimeoutExtensionResponse.from_dict data = mret r →
  minutes_extended r = v.
Proof.
  intros Hv. unfold TimeoutExtensionResponse.from_dict, getitem.
  destruct (data !! "container_id") as [cid|]; [|discriminate].
  destruct (data !! "new_timeout_at") as [new_at|]; [|discriminate].
  simpl. intros [= <-]. simpl. unfold get. by rewrite Hv.
Qed.

(** ** The minutes sent by [ContainerManager.extend_timeout] *)

Lemma extend_timeout_minutes_bounds (additional_minutes : Z) :
  1 ≤ ContainerManager.extend_timeout_minutes additional_minutes ≤ 480.
Proof. unfold ContainerManager.extend_timeout_minutes. lia. Qed.

Lemma extend_timeout_minutes_cases (additional_minutes : Z) :
  ContainerManager.extend_timeout_minutes additional_minutes =
    if additional_minutes <? 1 then 1
    else if 480 <? additional_minutes then 480
    else additional_minutes.
Proof.
  unfold ContainerManager.extend_timeout_minutes.
  destruct (Z.ltb_spec additional_minutes 1);
    destruct (Z.ltb_spec 480 additional_minutes); lia.
Qed.

(** [extend_timeout] makes one request, the one built by
    [extend_timeout_request], whatever the client does with it. *)
Lemma extend_timeout_makes_request {Backend : Type}
    (make_request : Request → Backend → result (gmap string pyval) * Backend)
    (cid : string) (additional_minutes : Z) (b : Backend) :
  ContainerManager.extend_timeout make_request cid additional_minutes b =
    let out :=
      make_request
        (ContainerManager.extend_timeout_request cid additional_minutes) b in
    (out.1 ≫= TimeoutExtensionResponse.from_dict, out.2).
Proof.
  unfold ContainerManager.extend_timeout.
  by destruct (make_request _ b).
Qed.

(** C3, as the code has it: the minutes sent are the input clamped to the
    fixed interval from 1 to 480, never below 1 and never above 480, and
    the input itself when it lies in that interval; the bound does not
    depend on the tier. *)
Theorem extend_timeout_sends_clamped_1_480
    (cid : string) (additional_minutes : Z) :
  let sent := ContainerManager.extend_timeout_minutes additional_minutes in
  req_json (ContainerManager.extend_timeout_request cid additional_minutes)
    = Some {[ "additional_minutes" := PyInt sent ]} ∧
  1 ≤ sent ≤ 480 ∧
  sent = (if additional_minutes <? 1 then 1
          else if 480 <? additional_minutes then 480
          else additional_minutes).
Proof.
  intros sent. split; [reflexivity|]. split.
  - apply extend_timeout_minutes_bounds.
  - apply extend_timeout_minutes_cases.
Qed.

(** C3 as stated fails: for a FREE-tier container with a 10-minute idle
    timeout the tier leaves 20 of its 30 minutes, the clamp to that
    allowance gives 20, and [extend_timeout(60)] sends 60, above the
    remaining allowance and above the tier's whole maximum. *)
Lemma extend_timeout_exceeds_tier_allowance :
  ∃ l, TIER_LIMITS !! "FREE" = Some l ∧
       max_idle_timeout_minutes l = Some 30 ∧
       Controller.max_idle_timeout_remaining l 10 = Some 20 ∧
       Controller.clamp_minutes (Some 20) 60 = 20 ∧
       req_json (ContainerManager.extend_timeout_request "c-1" 60)
         = Some {[ "additional_minutes" := PyInt 60 ]} ∧
       ¬ (ContainerManager.extend_timeout_minutes 60 ≤ 20) ∧
       ¬ (ContainerManager.extend_timeout_minutes 60 ≤ 30).
Proof.
  eexists. split; [reflexivity|].
  split_and!; try reflexivity;
    unfold ContainerManager.extend_timeout_minutes; lia.
Qed.

(** * Further properties of [lifecycle.py] *)

(** ** [IdleAction] *)

Lemma IdleAction_of_value_Some (s : string) (a : IdleAction) :
  IdleAction_of_value s = Some a → s = IdleAction_value a.
Proof.
  unfold IdleAction_of_value. intros H.
  apply find_some in H as [_ H]. by apply bool_decide_eq_true in H.
Qed.

Lemma IdleAction_call_mret (v : pyval) (a : IdleAction) :
  IdleAction_call v = mret a ↔
  v = PyIdleAction a ∨ v = PyStr (IdleAction_value a).
Proof.
  split.
  - destruct v as [| | |s|a'| |]; simpl; try discriminate.
    + destruct (IdleAction_of_value s) as [a'|] eqn:E; [|discriminate].
      intros [= ->]. right. f_equal. by apply IdleAction_of_value_Some.
    + intros [= ->]. by left.
  - intros [-> | ->]; simpl; [done|]. by rewrite IdleAction_of_value_value.
Qed.

Lemma IdleAction_call_raise (v : pyval) (e : exn) :
  IdleAction_call v = raise e → e = ValueError v.
Proof.
  destruct v as [| | |s|a'| |]; simpl; intros H;
    try (by injection H as <-); [|discriminate H].
  destruct (IdleAction_of_value s); [discriminate H | by injection H as <-].
Qed.

Lemma IdleAction_call_cases (v : pyval) :
  match IdleAction_call v with
  | inr a => v = PyIdleAction a ∨ v = PyStr (IdleAction_value a)
  | inl e =>
      e = ValueError v ∧
      ∀ a, v ≠ PyIdleAction a ∧ v ≠ PyStr (IdleAction_value a)
  end.
Proof.
  destruct (IdleAction_call v) as [e|a] eqn:E.
  - split; [by apply IdleAction_call_raise|].
    intros a. split; intros ->.
    + discriminate E.
    + simpl in E. by rewrite IdleAction_of_value_value in E.
  - by apply IdleAction_call_mret.
Qed.

(** X1: [IdleAction(v)] returns a member exactly when [v] is that member
    or its string value ("shutdown", "hibernate", "keep_alive", pairwise
    distinct); on anything else it raises [ValueError] carrying [v]. *)
Theorem idle_action_call_spec (v : pyval) :
  IdleAction_value <$> IdleAction_members = ["shutdown"; "hibernate"; "keep_alive"] ∧
  NoDup (IdleAction_value <$> IdleAction_members) ∧
  match IdleAction_call v with
  | inr a => v = PyIdleAction a ∨ v = PyStr (IdleAction_value a)
  | inl e =>
      e = ValueError v ∧
      ∀ a, v ≠ PyIdleAction a ∧ v ≠ PyStr (IdleAction_value a)
  end.
Proof.
  split; [reflexivity|]. split; [compute_done|]. apply IdleAction_call_cases.
Qed.

(** ** [LifecycleConfig.from_dict] and [to_dict] *)

(** The parse only ever fails on the ['idle_action'] entry. *)
Lemma lifecycle_config_from_dict_action (data : gmap string pyval) :
  LifecycleConfig.from_dict data =
    IdleAction_call (get data "idle_action" (PyStr "shutdown")) ≫= λ a,
    mret (mkLifecycleConfig
            (get data "idle_timeout_minutes" (PyInt 30))
            (get data "max_duration_hours" PyNone)
            (PyIdleAction a)
            (get data "auto_wake" (PyBool true))
            (get data "keep_alive_on_preview" (PyBool false))
            (get data "heartbeat_interval_seconds" (PyInt 300))).
Proof. reflexivity. Qed.

Lemma lifecycle_config_from_dict_member (data : gmap string pyval) (c : LifecycleConfig) :
  LifecycleConfig.from_dict data = mret c → ∃ a, idle_action c = PyIdleAction a.
Proof.
  rewrite lifecycle_config_from_dict_action.
  destruct (IdleAction_call _) as [e|a]; simpl; [discriminate|].
  intros [= <-]. by exists a.
Qed.

(** X2: a dict with none of the six keys parses to the default
    configuration [LifecycleConfig()], whatever other keys it has. *)
Theorem lifecycle_config_from_dict_defaults (data : gmap string pyval) :
  (∀ k, k ∈ LifecycleConfig_keys → data !! k = None) →
  LifecycleConfig.from_dict data = mret LifecycleConfig.defaults.
Proof.
  intros Hnone. unfold LifecycleConfig.from_dict, LifecycleConfig.defaults.
  rewrite !get_absent by (apply Hnone; compute_done). reflexivity.
Qed.

Lemma lifecycle_config_from_dict_defaults_witness :
  LifecycleConfig.from_dict {[ "container_id" := PyStr "c-1" ]}
  = mret LifecycleConfig.defaults.
Proof.
  apply lifecycle_config_from_dict_defaults.
  intros k Hk. apply lookup_singleton_ne. intros <-.
  revert Hk. compute_done.
Defined.

(** X3: [from_dict] returns exactly when the ['idle_action'] entry is
    absent, a member, or one of the three value strings; otherwise it
    raises [ValueError] on that entry, and never [KeyError]. *)
Theorem lifecycle_config_from_dict_returns (data : gmap string pyval) :
  match LifecycleConfig.from_dict data with
  | inr c =>
      (data !! "idle_action" = None ∧ idle_action c = PyIdleAction SHUTDOWN) ∨
      ∃ a, idle_action c = PyIdleAction a ∧
           (data !! "idle_action" = Some (PyIdleAction a) ∨
            data !! "idle_action" = Some (PyStr (IdleAction_value a)))
  | inl e =>
      ∃ v, data !! "idle_action" = Some v ∧ e = ValueError v ∧
           ∀ a, v ≠ PyIdleAction a ∧ v ≠ PyStr (IdleAction_value a)
  end.
Proof.
  rewrite lifecycle_config_from_dict_action. unfold get.
  destruct (data !! "idle_action") as [v|]; simpl; [|by left].
  pose proof (IdleAction_call_cases v) as H.
  destruct (IdleAction_call v) as [e|a]; simpl.
  - exists v. by destruct H.
  - right. exists a. split; [done|]. destruct H as [-> | ->]; auto.
Qed.

Lemma lifecycle_config_to_dict_member (c : LifecycleConfig) (a : IdleAction) :
  idle_action c = PyIdleAction a →
  LifecycleConfig.to_dict c =
    mret (<["idle_timeout_minutes" := idle_timeout_minutes c]>
         (<["max_duration_hours" := max_duration_hours c]>
         (<["idle_action" := PyStr (IdleAction_value a)]>
         (<["auto_wake" := auto_wake c]>
         (<["keep_alive_on_preview" := keep_alive_on_preview c]>
         (<["heartbeat_interval_seconds" := heartbeat_interval_seconds c]>
          ∅)))))).
Proof. intros H. unfold LifecycleConfig.to_dict. by rewrite H. Qed.



(** X5: what [from_dict] returns is a fixed point of the round trip:
    [to_dict] accepts it and [from_dict] of that dict gives it back, so
    parsing, serialising and parsing again changes nothing. *)
Theorem lifecycle_config_reparse (data : gmap string pyval) (c : LifecycleConfig) :
  LifecycleConfig.from_dict data = mret c →
  LifecycleConfig.to_dict c ≫= LifecycleConfig.from_dict = mret c.
Proof.
  intros Hc. destruct (lifecycle_config_from_dict_member data c Hc) as [a Ha].
  rewrite (lifecycle_config_to_dict_member c a Ha). simpl.
  apply from_dict_to_dict. by apply lifecycle_config_to_dict_member.
Qed.

Lemma lifecycle_config_reparse_witness :
  let data : gmap string pyval :=
    <["idle_action" := PyStr "hibernate"]> (<["idle_timeout_minutes" := PyInt 120]> ∅) in
  LifecycleConfig.to_dict LifecycleConfig.development ≫= LifecycleConfig.from_dict
  = mret LifecycleConfig.development.
Proof.
  intros data. apply (lifecycle_config_reparse data). reflexivity.
Defined.

(** X6: the other direction of the round trip.  A dict with exactly the
    six keys whose ['idle_action'] is one of the value strings is given
    back unchanged by [from_dict] followed by [to_dict]. *)
Theorem lifecycle_config_dict_round_trip (data : gmap string pyval) (a : IdleAction) :
  dom data = list_to_set LifecycleConfig_keys →
  data !! "idle_action" = Some (PyStr (IdleAction_value a)) →
  LifecycleConfig.from_dict data ≫= LifecycleConfig.to_dict = mret data.
Proof.
  intros Hdom Ha.
  assert (∀ k dflt, k ∈ LifecycleConfig_keys → Some (get data k dflt) = data !! k)
    as Hget.
  { intros k dflt Hk.
    assert (k ∈ dom data) as [v Hv]%elem_of_dom
      by (rewrite Hdom; by apply elem_of_list_to_set).
    unfold get. by rewrite Hv. }
  rewrite lifecycle_config_from_dict_action.
  assert (get data "idle_action" (PyStr "shutdown") = PyStr (IdleAction_value a))
    as -> by (unfold get; by rewrite Ha).
  simpl. rewrite IdleAction_of_value_value. simpl.
  erewrite (lifecycle_config_to_dict_member _ a) by reflexivity. simpl.
  unfold mret, result_ret. f_equal.
  apply map_eq. intros i. rewrite !lookup_insert.
  repeat case_decide; subst;
    try (by rewrite ?Ha; try apply Hget; compute_done).
  rewrite lookup_empty. symmetry. apply not_elem_of_dom. rewrite Hdom.
  rewrite elem_of_list_to_set. unfold LifecycleConfig_keys.
  rewrite !not_elem_of_cons. by repeat split; try apply not_elem_of_nil.
Qed.

Lemma lifecycle_config_dict_round_trip_witness :
  let data : gmap string pyval :=
    <["idle_timeout_minutes" := PyInt 60]>
    (<["max_duration_hours" := PyInt 2]>
    (<["idle_action" := PyStr "shutdown"]>
    (<["auto_wake" := PyBool true]>
    (<["keep_alive_on_preview" := PyBool false]>
    (<["heartbeat_interval_seconds" := PyInt 300]> ∅))))) in
  LifecycleConfig.from_dict data ≫= LifecycleConfig.to_dict = mret data.
Proof.
  intros data. apply (lifecycle_config_dict_round_trip data SHUTDOWN).
  - unfold data. rewrite !dom_insert_L, dom_empty_L. reflexivity.
  - reflexivity.
Defined.

(** ** The response parsers *)

(** [first_missing] on one more key. *)
Lemma first_missing_cons (data : gmap string pyval) (k : string) (keys : list string) :
  first_missing data (k :: keys) =
    match data !! k with
    | Some _ => first_missing data keys
    | None => Some k
    end.
Proof.
  unfold first_missing. rewrite filter_cons.
  destruct (data !! k) as [v|]; case_decide as H;
    solve [ done | destruct H; eauto | destruct H; by intros [? ?] ].
Qed.

(** X7: [HeartbeatResponse.from_dict] needs ['container_id'],
    ['last_heartbeat'] and ['next_timeout_at']: it returns exactly when all
    three are present, with their values, and otherwise raises [KeyError]
    on the first one missing in that order. *)
Theorem heartbeat_from_dict_spec (data : gmap string pyval) :
  let required := ["container_id"; "last_heartbeat"; "next_timeout_at"] in
  match HeartbeatResponse.from_dict data with
  | inr r =>
      first_missing data required = None ∧
      data !! "container_id" = Some (HeartbeatResponse.container_id r) ∧
      data !! "last_heartbeat" = Some (HeartbeatResponse.last_heartbeat r) ∧
      data !! "next_timeout_at" = Some (HeartbeatResponse.next_timeout_at r)
  | inl e =>
      ∃ k, first_missing data required = Some k ∧ e = KeyError k
  end.
Proof.
  intros required. unfold required, HeartbeatResponse.from_dict, getitem.
  rewrite !first_missing_cons.
  destruct (data !! "container_id") as [cid|]; simpl; [|by eexists].
  destruct (data !! "last_heartbeat") as [beat|]; simpl; [|by eexists].
  destruct (data !! "next_timeout_at") as [next|]; simpl; [|by eexists].
  done.
Qed.

(** X8: a keep-alive response that carries only its ['container_id'] reads
    as keep-alive off and not authorised, with user tier "FREE", whose
    entry of [TIER_LIMITS] has no keep-alive, and a required tier
    "TEAM_ENTERPRISE" that is not a key of [TIER_LIMITS]. *)
Theorem keep_alive_from_dict_fail_closed (data : gmap string pyval) (cid : pyval) :
  data !! "container_id" = Some cid →
  (∀ k, k ∈ ["keep_alive_enabled"; "requires_tier"; "user_tier"; "is_authorized"] →
        data !! k = None) →
  ∃ r, KeepAliveResponse.from_dict data = mret r ∧
       KeepAliveResponse.keep_alive_enabled r = PyBool false ∧
       KeepAliveResponse.is_authorized r = PyBool false ∧
       (∃ tier l, KeepAliveResponse.user_tier r = PyStr tier ∧
                  TIER_LIMITS_getitem tier = mret l ∧ keep_alive l = false) ∧
       (∃ tier, KeepAliveResponse.requires_tier r = PyStr tier ∧
                TIER_LIMITS_getitem tier = raise (KeyError tier)).
Proof.
  intros Hcid Hnone. unfold KeepAliveResponse.from_dict, getitem.
  rewrite Hcid. simpl. eexists. split; [reflexivity|]. simpl.
  rewrite !get_absent by (apply Hnone; compute_done).
  split_and!; [done | done | |].
  - by eexists "FREE", _.
  - by eexists "TEAM_ENTERPRISE".
Qed.

Lemma keep_alive_from_dict_fail_closed_witness :
  ∃ r, KeepAliveResponse.from_dict {[ "container_id" := PyStr "c-1" ]} = mret r ∧
       KeepAliveResponse.keep_alive_enabled r = PyBool false ∧
       KeepAliveResponse.is_authorized r = PyBool false ∧
       (∃ tier l, KeepAliveResponse.user_tier r = PyStr tier ∧
                  TIER_LIMITS_getitem tier = mret l ∧ keep_alive l = false) ∧
       (∃ tier, KeepAliveResponse.requires_tier r = PyStr tier ∧
                TIER_LIMITS_getitem tier = raise (KeyError tier)).
Proof.
  apply (keep_alive_from_dict_fail_closed _ (PyStr "c-1")).
  - reflexivity.
  - intros k Hk. apply lookup_singleton_ne. intros <-. revert Hk. compute_done.
Defined.

(** X9: [LifecycleStatus.from_dict] needs ['container_id'] and
    ['last_activity_at'] and nothing else: it raises [KeyError] on the
    first of the two that is missing and otherwise returns, storing the
    ['state'] and ['idle_action'] entries as they come, valid or not. *)
Theorem lifecycle_status_from_dict_spec (data : gmap string pyval) :
  let required := ["container_id"; "last_activity_at"] in
  match LifecycleStatus.from_dict data with
  | inr r =>
      first_missing data required = None ∧
      data !! "container_id" = Some (LifecycleStatus.container_id r) ∧
      data !! "last_activity_at" = Some (LifecycleStatus.last_activity_at r) ∧
      LifecycleStatus.state r = get data "state" (PyStr "running") ∧
      LifecycleStatus.idle_action r = get data "idle_action" (PyStr "shutdown")
  | inl e =>
      ∃ k, first_missing data required = Some k ∧ e = KeyError k
  end.
Proof.
  intros required. unfold required, LifecycleStatus.from_dict, getitem.
  rewrite !first_missing_cons.
  destruct (data !! "container_id") as [cid|]; simpl; [|by eexists].
  destruct (data !! "last_activity_at") as [last|]; simpl; [|by eexists].
  done.
Qed.

(** X10: the defaults of [LifecycleStatus.from_dict] agree with the rest
    of the module.  A status without ['state'], ['idle_action'] and
    ['idle_timeout_minutes'] reads as a RUNNING container under the default
    [LifecycleConfig]: the state string is the value of [RUNNING], the
    action string names the default action and the timeout is the default
    timeout. *)
Theorem lifecycle_status_defaults_agree
    (data : gmap string pyval) (r : LifecycleStatus.t) :
  LifecycleStatus.from_dict data = mret r →
  (∀ k, k ∈ ["state"; "idle_action"; "idle_timeout_minutes"] → data !! k = None) →
  LifecycleStatus.state r = PyStr (LifecycleState_value RUNNING) ∧
  (∃ a, IdleAction_call (LifecycleStatus.idle_action r) = mret a ∧
        idle_action LifecycleConfig.defaults = PyIdleAction a) ∧
  LifecycleStatus.idle_timeout_minutes r
    = idle_timeout_minutes LifecycleConfig.defaults.
Proof.
  intros Hr Hnone. revert Hr. unfold LifecycleStatus.from_dict, getitem.
  destruct (data !! "container_id") as [cid|]; simpl; [|discriminate].
  destruct (data !! "last_activity_at") as [last|]; simpl; [|discriminate].
  intros [= <-]. simpl.
  rewrite !get_absent by (apply Hnone; compute_done).
  split_and!; [done | by exists SHUTDOWN | done].
Qed.

Lemma lifecycle_status_defaults_agree_witness :
  let data : gmap string pyval :=
    <["container_id" := PyStr "c-1"]>
      (<["last_activity_at" := PyStr "2025-01-01T00:00:00Z"]> ∅) in
  ∃ r, LifecycleStatus.from_dict data = mret r ∧
       LifecycleStatus.state r = PyStr (LifecycleState_value RUNNING) ∧
       (∃ a, IdleAction_call (LifecycleStatus.idle_action r) = mret a ∧
             idle_action LifecycleConfig.defaults = PyIdleAction a) ∧
       LifecycleStatus.idle_timeout_minutes r
         = idle_timeout_minutes LifecycleConfig.defaults.
Proof.
  intros data. eexists. split; [reflexivity|].
  apply (lifecycle_status_defaults_agree data); [reflexivity|].
  intros k Hk. unfold data. rewrite !lookup_insert_ne, lookup_empty; [done|..];
    intros <-; revert Hk; compute_done.
Defined.

(** X11: [TimeoutExtensionResponse.from_dict] needs ['container_id'] and
    ['new_timeout_at']: it raises [KeyError] on the first one missing and
    otherwise returns; [minutes_extended] is then the ['minutes_extended']
    entry when there is one, even if it differs from [added_minutes], and
    [added_minutes] otherwise. *)
Theorem timeout_extension_from_dict_spec (data : gmap string pyval) :
  let required := ["container_id"; "new_timeout_at"] in
  match TimeoutExtensionResponse.from_dict data with
  | inr r =>
      first_missing data required = None ∧
      data !! "container_id" = Some (container_id r) ∧
      data !! "new_timeout_at" = Some (new_timeout_at r) ∧
      added_minutes r = get data "added_minutes" (PyInt 0) ∧
      minutes_extended r = default (added_minutes r) (data !! "minutes_extended")
  | inl e =>
      ∃ k, first_missing data required = Some k ∧ e = KeyError k
  end.
Proof.
  intros required. unfold required, TimeoutExtensionResponse.from_dict, getitem.
  rewrite !first_missing_cons.
  destruct (data !! "container_id") as [cid|]; simpl; [|by eexists].
  destruct (data !! "new_timeout_at") as [new_at|]; simpl; [|by eexists].
  done.
Qed.

(** * Further properties of [containers.py] *)

(** X12: the minutes sent by [extend_timeout] grow with the minutes asked
    for, and clamping an already clamped value changes nothing. *)
Theorem extend_timeout_minutes_monotone (a b : Z) :
  a ≤ b →
  ContainerManager.extend_timeout_minutes a
    ≤ ContainerManager.extend_timeout_minutes b ∧
  ContainerManager.extend_timeout_minutes (ContainerManager.extend_timeout_minutes a)
    = ContainerManager.extend_timeout_minutes a.
Proof. unfold ContainerManager.extend_timeout_minutes. lia. Qed.

Lemma extend_timeout_minutes_monotone_witness :
  ContainerManager.extend_timeout_minutes (-5)
    ≤ ContainerManager.extend_timeout_minutes 600 ∧
  ContainerManager.extend_timeout_minutes (ContainerManager.extend_timeout_minutes (-5))
    = ContainerManager.extend_timeout_minutes (-5).
Proof. apply extend_timeout_minutes_monotone. lia. Defined.

Section containers_client.
Context {Backend : Type}.
Variable make_request :
  Request → Backend → result (gmap string pyval) * Backend.


(** X14: otherwise [configure_lifecycle] makes one PUT request to the
    container's [lifecycle] endpoint whose body decodes, by
    [LifecycleConfig.from_dict], to the configuration given, and parses
    the answer as a [LifecycleStatus]. *)
Theorem configure_lifecycle_sends_config
    (cid : string) (config : LifecycleConfig) (a : IdleAction) (b : Backend) :
  idle_action config = PyIdleAction a →
  ∃ body,
    LifecycleConfig.from_dict body = mret config ∧
    Containers.configure_lifecycle make_request cid config b =
      let out :=
        make_request
          (mkRequest "PUT" ("containers/" +:+ cid +:+ "/lifecycle") (Some body)) b in
      (out.1 ≫= LifecycleStatus.from_dict, out.2).
Proof.
  intros Ha. unfold Containers.configure_lifecycle.
  pose proof (lifecycle_config_to_dict_member config a Ha) as Hd.
  rewrite Hd. eexists. split.
  - by apply from_dict_to_dict.
  - unfold Containers.request_and_parse, Containers.endpoint. simpl.
    by destruct (make_request _ b).
Qed.

End containers_client.


Lemma configure_lifecycle_sends_config_witness :
  let make_request (_ : Request) (n : nat) : result (gmap string pyval) * nat :=
    (raise (FleeksError "FleeksPermissionError"), S n) in
  ∃ body,
    LifecycleConfig.from_dict body = mret LifecycleConfig.always_on ∧
    Containers.configure_lifecycle make_request "c-1" LifecycleConfig.always_on 0%nat =
      let out :=
        make_request
          (mkRequest "PUT" ("containers/" +:+ "c-1" +:+ "/lifecycle") (Some body)) 0%nat in
      (out.1 ≫= LifecycleStatus.from_dict, out.2).
Proof.
  intros make_request.
  apply (configure_lifecycle_sends_config make_request "c-1" _ KEEP_ALIVE).
  reflexivity.
Defined.

(** X15: the body of [exec] always has ['command'], ['working_dir'] and
    ['timeout_seconds'], the timeout exactly as given (it is not clamped),
    and has ['environment'] exactly when the argument is a non-empty dict:
    an empty dict is dropped like [None]. *)
Theorem exec_data_spec (command working_dir : string) (timeout_seconds : Z)
    (environment : option (list (string * string))) :
  let data := Containers.exec_data command working_dir timeout_seconds environment in
  data !! "command" = Some (PyStr command) ∧
  data !! "working_dir" = Some (PyStr working_dir) ∧
  data !! "timeout_seconds" = Some (PyInt timeout_seconds) ∧
  data !! "environment" =
    match environment with
    | Some (kv :: rest) => Some (str_dict (kv :: rest))
    | _ => None
    end ∧
  Containers.exec_data command working_dir timeout_seconds (Some [])
    = Containers.exec_data command working_dir timeout_seconds None.
Proof.
  intros data. unfold data, Containers.exec_data.
  destruct environment as [[|kv rest]|]; simpl; split_and!;
    rewrite ?lookup_insert; done.
Qed.

(** ** Endpoints *)






(** * Properties of [embeds.py] *)

Lemma EmbedLayoutPreset_call_value (l : EmbedLayoutPreset) :
  EmbedLayoutPreset_call (PyStr (EmbedLayoutPreset_value l)) = mret l.
Proof. by destruct l. Qed.

Lemma EmbedTheme_call_value (t : EmbedTheme) :
  EmbedTheme_call (PyStr (EmbedTheme_value t)) = mret t.
Proof. by destruct t. Qed.

(** X17: serialization round trip of [EmbedSettings]: for settings whose
    [layout] and [theme] are members of their enums, whatever the other
    fields hold, [from_dict (to_dict s)] is [s]. *)
Theorem embed_settings_round_trip (l : EmbedLayoutPreset) (th : EmbedTheme)
    (read_only show_terminal show_file_tree show_console auto_run
       hide_navigation font_size tab_size : pyval) :
  let s := EmbedSettings.mk (LayoutMember l) (ThemeMember th) read_only
             show_terminal show_file_tree show_console auto_run
             hide_navigation font_size tab_size in
  EmbedSettings.to_dict s ≫= EmbedSettings.from_dict = mret s.
Proof.
  intros s. unfold s, EmbedSettings.to_dict, EmbedSettings.to_dict_items.
  simpl. unfold EmbedSettings.from_dict. set (d := <["layout":=_]> _).
  assert (get d "layout" (PyStr "side-by-side") = PyStr (EmbedLayoutPreset_value l))
    as -> by reflexivity.
  assert (get d "theme" (PyStr "dark") = PyStr (EmbedTheme_value th))
    as -> by reflexivity.
  rewrite EmbedLayoutPreset_call_value, EmbedTheme_call_value. reflexivity.
Qed.

(** X18: [EmbedFile]: [to_dict] drops the path and [from_dict], given the
    path again, restores the file; a bare string stands for the dict that
    has only its ['code']. *)
Theorem embed_file_round_trip (f : EmbedFile.t) (p content : string) :
  EmbedFile.from_dict (EmbedFile.path f) (inr (EmbedFile.to_dict f)) = f ∧
  EmbedFile.from_dict p (inl content)
    = EmbedFile.from_dict p (inr {[ "code" := PyStr content ]}).
Proof.
  split.
  - destruct f as [path code hidden active]. unfold EmbedFile.to_dict.
    simpl. by get_literal.
  - reflexivity.
Qed.

(** ** [EmbedManager.create] *)

(** The body before the optional keys are added. *)
Lemma create_data_inv (a : EmbedManager.create_args) (data : gmap string pyval) :
  EmbedManager.create_data a = mret data →
  ∃ settings base,
    EmbedSettings.to_dict_items (EmbedManager.create_settings a) = mret settings ∧
    base =
      <["name" := PyStr (EmbedManager.name a)]>
      (<["template" :=
           EmbedManager.value_if_member EmbedTemplate_value (EmbedManager.template a)]>
      (<["display_mode" :=
           EmbedManager.value_if_member DisplayMode_value (EmbedManager.display_mode a)]>
      (<["allowed_origins" :=
           str_list (if truthy_list (EmbedManager.allowed_origins a)
                     then default [] (EmbedManager.allowed_origins a) else ["*"])]>
      (<["session_timeout_minutes" :=
           PyInt (Z.max 5 (Z.min 60 (EmbedManager.session_timeout_minutes a)))]>
      (<["max_sessions" := PyInt (Z.max 1 (Z.min 1000 (EmbedManager.max_sessions a)))]>
      (<["settings" := PyDict settings]> ∅)))))) ∧
    data =
      (if truthy_str (EmbedManager.description a)
       then <["description" := PyStr (default "" (EmbedManager.description a))]>
       else id)
      ((if truthy_dict (EmbedManager.files a)
        then <["files" := str_dict (default [] (EmbedManager.files a))]>
        else id) base).
Proof.
  unfold EmbedManager.create_data.
  destruct (EmbedSettings.to_dict_items _) as [e|settings]; simpl; [discriminate|].
  intros [= <-]. eexists _, _. split; [done|]. split; [done|].
  by destruct (truthy_str _), (truthy_dict _).
Qed.

(** Looking a key up in the body of [create]. *)
Ltac create_lookup H :=
  apply create_data_inv in H as (settings & base & Hsettings & -> & ->);
  destruct (truthy_str _) eqn:Hdescription, (truthy_dict _) eqn:Hfiles;
  simpl; rewrite ?lookup_insert; simpl.

(** X19: [create] sends a session timeout clamped to 5..60 and a session
    limit clamped to 1..1000, whatever was asked for. *)
Theorem create_data_clamps (a : EmbedManager.create_args) (data : gmap string pyval) :
  EmbedManager.create_data a = mret data →
  ∃ timeout sessions,
    data !! "session_timeout_minutes" = Some (PyInt timeout) ∧
    data !! "max_sessions" = Some (PyInt sessions) ∧
    5 ≤ timeout ≤ 60 ∧ 1 ≤ sessions ≤ 1000 ∧
    timeout = (if EmbedManager.session_timeout_minutes a <? 5 then 5
               else if 60 <? EmbedManager.session_timeout_minutes a then 60
               else EmbedManager.session_timeout_minutes a) ∧
    sessions = (if EmbedManager.max_sessions a <? 1 then 1
                else if 1000 <? EmbedManager.max_sessions a then 1000
                else EmbedManager.max_sessions a).
Proof.
  intros H.
  exists (Z.max 5 (Z.min 60 (EmbedManager.session_timeout_minutes a))),
         (Z.max 1 (Z.min 1000 (EmbedManager.max_sessions a))).
  assert (∀ lo hi x, lo ≤ hi →
            Z.max lo (Z.min hi x) = if x <? lo then lo else if hi <? x then hi else x)
    as Hclamp.
  { intros lo hi x Hle.
    destruct (Z.ltb_spec x lo); destruct (Z.ltb_spec hi x); lia. }
  split_and!; try lia; try (by apply Hclamp); create_lookup H; done.
Qed.

Lemma create_data_clamps_witness :
  let a := EmbedManager.mk_create_args "demo" (inl REACT) None None
             (inl WEB_PREVIEW) (LayoutMember SIDE_BY_SIDE) (ThemeMember DARK)
             600 0 (PyBool false) (PyBool true) (PyBool true) (PyBool true) None in
  ∃ data,
    EmbedManager.create_data a = mret data ∧
    ∃ timeout sessions,
      data !! "session_timeout_minutes" = Some (PyInt timeout) ∧
      data !! "max_sessions" = Some (PyInt sessions) ∧
      5 ≤ timeout ≤ 60 ∧ 1 ≤ sessions ≤ 1000 ∧
      timeout = (if EmbedManager.session_timeout_minutes a <? 5 then 5
                 else if 60 <? EmbedManager.session_timeout_minutes a then 60
                 else EmbedManager.session_timeout_minutes a) ∧
      sessions = (if EmbedManager.max_sessions a <? 1 then 1
                  else if 1000 <? EmbedManager.max_sessions a then 1000
                  else EmbedManager.max_sessions a).
Proof.
  intros a. eexists. split; [reflexivity|].
  apply (create_data_clamps a). reflexivity.
Defined.

(** X20: [create] treats empty arguments as missing ones: an
    [allowed_origins] that is [None] or the empty list is sent as ["*"],
    so the list sent is never empty; the ['files'] key is sent only for a
    non-empty dict and ['description'] only for a non-empty string. *)
Theorem create_data_empty_arguments
    (a : EmbedManager.create_args) (data : gmap string pyval) :
  EmbedManager.create_data a = mret data →
  data !! "allowed_origins" =
    Some (str_list match EmbedManager.allowed_origins a with
                   | Some (o :: os) => o :: os
                   | _ => ["*"]
                   end) ∧
  data !! "files" =
    match EmbedManager.files a with
    | Some (kv :: rest) => Some (str_dict (kv :: rest))
    | _ => None
    end ∧
  data !! "description" =
    match EmbedManager.description a with
    | Some (String c d) => Some (PyStr (String c d))
    | _ => None
    end.
Proof.
  intros H. create_lookup H;
    destruct (EmbedManager.allowed_origins a) as [[|o os]|];
    destruct (EmbedManager.files a) as [[|kv rest]|];
    destruct (EmbedManager.description a) as [[|c d]|];
    try discriminate; done.
Qed.

Lemma create_data_empty_arguments_witness :
  let a := EmbedManager.mk_create_args "demo" (inl PYTHON) (Some []) (Some [])
             (inr (PyStr "split_view")) (LayoutMember STACKED) (ThemeMember NORD)
             600 0 (PyBool false) (PyBool true) (PyBool true) (PyBool true)
             (Some "") in
  ∃ data,
    EmbedManager.create_data a = mret data ∧
    data !! "allowed_origins" = Some (PyList [PyStr "*"]) ∧
    data !! "files" = None ∧
    data !! "description" = None.
Proof.
  intros a. eexists. split; [reflexivity|].
  apply (create_data_empty_arguments a). reflexivity.
Defined.

(** ** [EmbedManager.list] and [Embed.update] *)

(** X21: [list] caps the page size at 100 and has no lower bound: a page
    size of 100 or less, zero and negative ones included, is sent as it
    is; the page is sent as it is and ['search'] only when it is a
    non-empty string. *)
Theorem list_params_spec (page page_size : Z) (include_inactive : bool)
    (template : EmbedTemplate + pyval) (search : option string) :
  let params :=
    EmbedManager.list_params page page_size include_inactive template search in
  params !! "page" = Some (PyInt page) ∧
  params !! "page_size" =
    Some (PyInt (if 100 <? page_size then 100 else page_size)) ∧
  params !! "search" =
    match search with
    | Some (String c s) => Some (PyStr (String c s))
    | _ => None
    end.
Proof.
  intros params. unfold params, EmbedManager.list_params.
  assert (Z.min 100 page_size = if 100 <? page_size then 100 else page_size)
    as -> by (destruct (Z.ltb_spec 100 page_size); lia).
  destruct (truthy _), search as [[|c s]|]; simpl;
    rewrite ?lookup_insert; simpl; done.
Qed.






(** * Properties of [deploy.py] *)

Section deploy_list.
Context {DeployListItem : Type}.
Variable from_dict : pyval → result DeployListItem.

(** A comprehension that returns has parsed every element, in order. *)
Lemma mapM_result_Forall2 (ds : list pyval) (rs : list DeployListItem) :
  mapM from_dict ds = mret rs → Forall2 (λ d r, from_dict d = mret r) ds rs.
Proof.
  revert rs. induction ds as [|d ds IH]; intros rs; simpl.
  - intros [= <-]. constructor.
  - destruct (from_dict d) as [e|r] eqn:Hd; simpl; [discriminate|].
    destruct (mapM from_dict ds) as [e|rs'] eqn:Hds; simpl; [discriminate|].
    intros [= <-]. constructor; [done | by apply IH].
Qed.

(** The first element that fails to parse decides the exception. *)
Lemma mapM_result_raise (ds : list pyval) (e : exn) :
  mapM from_dict ds = raise e →
  ∃ before d after,
    ds = before ++ d :: after ∧ from_dict d = raise e ∧
    Forall (λ d', ∃ r, from_dict d' = mret r) before.
Proof.
  induction ds as [|d ds IH]; simpl; [discriminate|].
  destruct (from_dict d) as [e'|r] eqn:Hd; simpl.
  - intros [= <-]. by exists [], d, ds.
  - destruct (mapM from_dict ds) as [e'|rs'] eqn:Hds; simpl; [|discriminate].
    intros [= <-]. destruct IH as (before & d' & after & -> & Hd' & Hbefore); [done|].
    exists (d :: before), d', after. split_and!; [done | done |].
    constructor; [by exists r | done].
Qed.

(** X23: [DeployManager.list] reads a response that wraps the list under
    ['deployments'] exactly as it reads the bare list. *)
Theorem deploy_list_wrapped_or_bare
    (kvs : list (string * pyval)) (ds : list pyval) :
  dict_get kvs "deployments" = Some (PyList ds) →
  DeployManager_list_items from_dict (PyDict kvs)
  = DeployManager_list_items from_dict (PyList ds).
Proof. intros H. unfold DeployManager_list_items. simpl. by rewrite H. Qed.

(** X24: on a list response, bare or wrapped, [list] returns one item per
    element, each the parse of its element, in order, or raises what the
    first unparsable element raises; a dict response without a list under
    ['deployments'] gives the empty list, not an error. *)
Theorem deploy_list_items_spec (data : pyval) (ds : list pyval) :
  data = PyList ds ∨
  (∃ kvs, data = PyDict kvs ∧ dict_get kvs "deployments" = Some (PyList ds)) →
  match DeployManager_list_items from_dict data with
  | inr rs => Forall2 (λ d r, from_dict d = mret r) ds rs
  | inl e =>
      ∃ before d after,
        ds = before ++ d :: after ∧ from_dict d = raise e ∧
        Forall (λ d', ∃ r, from_dict d' = mret r) before
  end.
Proof.
  intros Hdata.
  assert (DeployManager_list_items from_dict data = mapM from_dict ds) as ->.
  { destruct Hdata as [-> | (kvs & -> & Hkvs)]; unfold DeployManager_list_items;
      simpl; [done | by rewrite Hkvs]. }
  destruct (mapM from_dict ds) as [e|rs] eqn:E.
  - by apply mapM_result_raise.
  - by apply mapM_result_Forall2.
Qed.

(** X25: a response that is not a list and, if it is a dict, has no list
    under ['deployments'], is never an item list: a dict gives the empty
    list without an error, anything else raises [AttributeError]. *)
Theorem deploy_list_items_no_list (data : pyval) :
  (∀ ds, data ≠ PyList ds) →
  (∀ kvs ds, data = PyDict kvs → dict_get kvs "deployments" ≠ Some (PyList ds)) →
  DeployManager_list_items from_dict data =
    match data with
    | PyDict _ => mret []
    | _ => raise (AttributeError data "get")
    end.
Proof.
  intros Hlist Hdict. destruct data as [| | | | |ds|kvs]; try done.
  - by destruct (Hlist ds).
  - unfold DeployManager_list_items. simpl.
    destruct (dict_get kvs "deployments") as [[| | | | |ds|]|] eqn:E; simpl; try done.
    by destruct (Hdict kvs ds).
Qed.

End deploy_list.

Lemma deploy_list_wrapped_or_bare_witness :
  let from_dict (d : pyval) : result pyval :=
    match d with PyDict _ => mret d | _ => raise (AttributeError d "get") end in
  let ds := [PyDict [("id", PyInt 1)]; PyDict [("id", PyInt 2)]] in
  DeployManager_list_items from_dict
    (PyDict [("total", PyInt 2); ("deployments", PyList ds)])
  = DeployManager_list_items from_dict (PyList ds).
Proof.
  intros from_dict ds. apply (deploy_list_wrapped_or_bare from_dict). reflexivity.
Defined.

Lemma deploy_list_items_spec_witness :
  let from_dict (d : pyval) : result pyval :=
    match d with PyDict _ => mret d | _ => raise (AttributeError d "get") end in
  let ds := [PyDict [("id", PyInt 1)]; PyNone; PyDict [("id", PyInt 3)]] in
  match DeployManager_list_items from_dict (PyList ds) with
  | inr rs => Forall2 (λ d r, from_dict d = mret r) ds rs
  | inl e =>
      ∃ before d after,
        ds = before ++ d :: after ∧ from_dict d = raise e ∧
        Forall (λ d', ∃ r, from_dict d' = mret r) before
  end.
Proof.
  intros from_dict ds. apply (deploy_list_items_spec from_dict). by left.
Defined.

(** * Routes and the hibernation response *)

Lemma route_inj (cid : string) :
  Inj (=) (=) (λ mo : string * string, (mo.1, Containers.endpoint cid mo.2)).
Proof.
  intros [m1 op1] [m2 op2]. unfold Containers.endpoint. simpl. intros [= -> H].
  f_equal. by repeat apply (inj (String.app _)) in H.
Qed.

(** X26: for one container, the twelve requests of [ContainerManager]
    have pairwise different routes (HTTP method and endpoint), whatever
    their arguments: no two operations can be mistaken for one another. *)
Theorem container_routes_distinct (cid command working_dir : string)
    (minutes timeout_seconds : Z) (enabled : bool)
    (environment : option (list (string * string))) (body : gmap string pyval) :
  NoDup (Containers.route <$>
    [ Containers.get_info_request cid;
      Containers.get_stats_request cid;
      Containers.exec_request cid command working_dir timeout_seconds environment;
      Containers.get_processes_request cid;
      Containers.restart_request cid;
      Containers.heartbeat_request cid;
      ContainerManager.extend_timeout_request cid minutes;
      Containers.set_keep_alive_request cid enabled;
      Containers.hibernate_request cid;
      Containers.wake_request cid;
      Containers.get_lifecycle_status_request cid;
      Containers.configure_lifecycle_request cid body ]).
Proof.
  change (NoDup ((λ mo : string * string, (mo.1, Containers.endpoint cid mo.2)) <$>
    [ ("GET", "info"); ("GET", "stats"); ("POST", "exec"); ("GET", "processes");
      ("POST", "restart"); ("POST", "heartbeat"); ("POST", "extend-timeout");
      ("POST", "keep-alive"); ("POST", "hibernate"); ("POST", "wake");
      ("GET", "lifecycle"); ("PUT", "lifecycle") ])).
  apply (@NoDup_fmap_2 _ _ _ (route_inj cid)). compute_done.
Qed.

(** X27: [HibernationResponse.from_dict] needs only ['container_id'] (it
    raises [KeyError] without it); [state] is the ['status'] entry, and
    when that is missing it is "unknown", which is not the value of any
    [LifecycleState]. *)
Theorem hibernation_from_dict_spec (data : gmap string pyval) :
  match HibernationResponse.from_dict data with
  | inr r =>
      data !! "container_id" = Some (HibernationResponse.container_id r) ∧
      HibernationResponse.state r = default (PyStr "unknown") (data !! "status") ∧
      (data !! "status" = None →
       ∃ s, HibernationResponse.state r = PyStr s ∧ LifecycleState_of_value s = None)
  | inl e => data !! "container_id" = None ∧ e = KeyError "container_id"
  end.
Proof.
  unfold HibernationResponse.from_dict, getitem.
  destruct (data !! "container_id") as [cid|]; simpl; [|done].
  split_and!; [done | done |].
  intros Hnone. exists "unknown". unfold HibernationResponse.state, get. simpl.
  by rewrite Hnone.
Qed.

Lemma deploy_list_items_no_list_witness :
  let from_dict (d : pyval) : result pyval := mret d in
  DeployManager_list_items from_dict (PyDict [("detail", PyStr "Not Found")])
  = mret [].
Proof.
  intros from_dict.
  apply (deploy_list_items_no_list from_dict (PyDict [("detail", PyStr "Not Found")])).
  - discriminate.
  - intros kvs ds [= <-]. discriminate.
Defined.
